(** * beerPong: the throw and cup request handlers

    A shallow embedding of [internal/api/handler.go] together with the
    package [config] globals it reads.  The two handlers are written in a
    small handler monad that threads the process state (client handles, the
    cache behind the Redis client, the log of outbound calls, the response
    writer) and has Go's early [return] and a run-time panic as control
    outcomes.

    Library code the handlers call is modelled by what its documentation says
    it does on the values that occur here:
    - [encoding/json]: a byte slice is represented by what the scanner makes
      of it (not a JSON text, or the JSON value it spells); decoding a value
      into [BallRequest] follows the struct rules of [json.Unmarshal];
    - [net/http]: the response writer keeps the first status written and the
      chunks written to the body; header fields are not modelled;
    - [go-redis], [permit-golang]: a client handle carries the outcome its
      server gives to a call; [log] output is not modelled. *)

From Stdlib Require Import ZArith Ascii String List.
From stdpp Require Import base strings gmap list.

Local Set Warnings "-register-all".

(** Go's [error] values that occur in the two handlers. *)
Inductive error : Type :=
| ReadError (msg : string)
| SyntaxError
| UnmarshalTypeError (Value : string) (Field : string)
| RedisError (msg : string)
| PermitError (msg : string).

(** ** package time *)
Module time.
Local Open Scope Z_scope.
Definition Duration := Z.
Definition Nanosecond : Duration := 1.
Definition Microsecond : Duration := 1000 * Nanosecond.
Definition Millisecond : Duration := 1000 * Microsecond.
Definition Second : Duration := 1000 * Millisecond.
Definition Minute : Duration := 60 * Second.
End time.

(** ** package context *)
Module context.
Inductive Context : Type :=
| backgroundCtx
| timerCtx (parent : Context) (timeout : time.Duration).

(** The function [WithTimeout] returns next to the context. *)
Inductive CancelFunc : Type := cancelOf (ctx : Context).

Definition Background : Context := backgroundCtx.

Definition WithTimeout (parent : Context) (timeout : time.Duration)
    : Context * CancelFunc :=
  (timerCtx parent timeout, cancelOf (timerCtx parent timeout)).

(** The deadline a context carries, as a duration from its creation. *)
Fixpoint Deadline (ctx : Context) : option time.Duration :=
  match ctx with
  | backgroundCtx => None
  | timerCtx parent d =>
      match Deadline parent with
      | Some d' => Some (Z.min d d')
      | None => Some d
      end
  end.
End context.

(** ** package encoding/json *)
Module json.
Inductive Value : Type :=
| Null
| Bool (b : bool)
| Number (literal : string)
| Str (s : string)
| Array (elems : list Value)
| Object (members : list (string * Value)).

(** A byte slice handed to [Unmarshal]. *)
Inductive Bytes : Type :=
| NotJSON
| Text (v : Value).

(** The word [UnmarshalTypeError] uses for the offending JSON value. *)
Definition kind (v : Value) : string :=
  match v with
  | Null => "null"
  | Bool _ => "bool"
  | Number _ => "number"
  | Str _ => "string"
  | Array _ => "array"
  | Object _ => "object"
  end.

Definition upper (c : ascii) : ascii :=
  let n := nat_of_ascii c in
  if (97 <=? n)%nat && (n <=? 122)%nat then ascii_of_nat (n - 32) else c.

Definition byte_is (c : ascii) (n : nat) : bool := (nat_of_ascii c =? n)%nat.

(** [foldName] on the UTF-8 bytes of an object key.  ASCII letters go to
    upper case; of the runes outside ASCII only U+017F (bytes C5 BF) and
    U+212A (bytes E2 84 AA) fold to an ASCII letter, [S] and [K].  Every
    other rune is left as it is here: its fold is not ASCII either, and the
    result is only ever compared with the fold of an ASCII field name. *)
Fixpoint foldName (s : string) : string :=
  match s with
  | EmptyString => EmptyString
  | String c s1 =>
      match s1 with
      | String d s2 =>
          if byte_is c 197 && byte_is d 191 then String "S" (foldName s2)
          else
            match s2 with
            | String e s3 =>
                if byte_is c 226 && byte_is d 132 && byte_is e 170
                then String "K" (foldName s3)
                else String (upper c) (foldName s1)
            | EmptyString => String (upper c) (foldName s1)
            end
      | EmptyString => String (upper c) EmptyString
      end
  end.
End json.

(** ** package net/http *)
Module http.
Local Open Scope Z_scope.
Definition StatusOK : Z := 200.
Definition StatusAccepted : Z := 202.
Definition StatusBadRequest : Z := 400.
Definition StatusForbidden : Z := 403.
Definition StatusInternalServerError : Z := 500.
Definition StatusServiceUnavailable : Z := 503.

(** What was written to a response body: a line of text ([fmt.Fprintln]),
    or the JSON encoding of a [map[string]string] followed by a newline
    ([json.Encoder.Encode]). *)
Inductive Chunk : Type :=
| Line (text : string)
| JSONLine (obj : gmap string string).

Record ResponseWriter : Type := {
  status : option Z;
  written : list Chunk
}.

Definition fresh : ResponseWriter := {| status := None; written := [] |}.

(** The first call fixes the status; a later one is ignored. *)
Definition WriteHeader (code : Z) (w : ResponseWriter) : ResponseWriter :=
  match status w with
  | Some _ => w
  | None => {| status := Some code; written := written w |}
  end.

(** A write before any [WriteHeader] sends status 200 first. *)
Definition Write (c : Chunk) (w : ResponseWriter) : ResponseWriter :=
  let w' := WriteHeader StatusOK w in
  {| status := status w'; written := written w' ++ [c] |}.

Definition Error (msg : string) (code : Z) (w : ResponseWriter) : ResponseWriter :=
  Write (Line msg) (WriteHeader code w).
End http.

(** ** package io *)
Module io.
(** A request body: reading it to the end yields its bytes, or fails with
    an error after the bytes read so far. *)
Inductive Reader : Type :=
| Holds (data : json.Bytes)
| Broken (sofar : json.Bytes) (err : error).

Definition ReadAll (r : Reader) : json.Bytes * option error :=
  match r with
  | Holds data => (data, None)
  | Broken sofar err => (sofar, Some err)
  end.
End io.

(** ** package github.com/redis/go-redis/v9 *)
Module redis.
(** The server's key space: each key holds a value and the expiry it was
    set with. *)
Abbreviation Store := (gmap string (string * time.Duration)).

(** A client handle.  [fault] is the server's answer to a SET issued
    through it: an error, or none. *)
Record Client : Type := {
  fault : Store -> string -> string -> time.Duration -> option error
}.

(** [SET key value EX expiration]: on an error reply the key space is as
    it was, otherwise the key holds the new value and expiry. *)
Definition Set_ (c : Client) (ctx : context.Context) (key value : string)
    (expiration : time.Duration) (db : Store) : Store * option error :=
  match fault c db key value expiration with
  | Some err => (db, Some err)
  | None => (<[key := (value, expiration)]> db, None)
  end.
End redis.

(** ** package github.com/permitio/permit-golang/pkg/enforcement *)
Module enforcement.
Record AssignedRole : Type := { Role : string; Tenant : string }.
Record User : Type := { Key : string; Roles : list AssignedRole }.
Record Resource : Type := { Type_ : string }.
Definition Action := string.

Definition UserBuilder (key : string) : User := {| Key := key; Roles := [] |}.
Definition WithRoles (roles : list AssignedRole) (u : User) : User :=
  {| Key := Key u; Roles := roles |}.
Definition ResourceBuilder (resourceType : string) : Resource :=
  {| Type_ := resourceType |}.
End enforcement.

(** ** package github.com/permitio/permit-golang/pkg/permit *)
Module permit.
(** A client handle: [decide] is what the policy-decision service answers
    to a check issued through it. *)
Record Client : Type := {
  decide : enforcement.User -> enforcement.Action -> enforcement.Resource ->
           bool * option error
}.
End permit.

(** ** Process state *)

(** Calls that leave the process, with the arguments they were given. *)
Inductive Call : Type :=
| RedisSet (ctx : context.Context) (key value : string) (expiration : time.Duration)
| PermitCheck (user : enforcement.User) (action : enforcement.Action)
    (resource : enforcement.Resource).

(** The cancellation context an outbound call runs under.  [Client.Check]
    has no context parameter. *)
Definition call_context (c : Call) : option context.Context :=
  match c with
  | RedisSet ctx _ _ _ => Some ctx
  | PermitCheck _ _ _ => None
  end.

(** [RedisClient] and [PermitClient] are the package [config] globals
    ([None] is Go's [nil]); [db] is the key space behind the Redis client;
    [calls] lists the outbound calls issued so far, oldest first; [w] is the
    response writer of the request being served. *)
Record Env : Type := {
  RedisClient : option redis.Client;
  PermitClient : option permit.Client;
  db : redis.Store;
  calls : list Call;
  w : http.ResponseWriter
}.

Definition set_w (w' : http.ResponseWriter) (e : Env) : Env :=
  {| RedisClient := RedisClient e; PermitClient := PermitClient e;
     db := db e; calls := calls e; w := w' |}.

Definition set_db (db' : redis.Store) (e : Env) : Env :=
  {| RedisClient := RedisClient e; PermitClient := PermitClient e;
     db := db'; calls := calls e; w := w e |}.

Definition record_call (c : Call) (e : Env) : Env :=
  {| RedisClient := RedisClient e; PermitClient := PermitClient e;
     db := db e; calls := calls e ++ [c]; w := w e |}.

(** ** The handler monad *)

(** How a statement ends: control goes on to the next one, the function
    returns, or the goroutine panics. *)
Inductive Flow (A : Type) : Type :=
| Next (a : A)
| Returned
| Panicked (msg : string).
Arguments Next {A} a.
Arguments Returned {A}.
Arguments Panicked {A} msg.

Definition Handler (A : Type) : Type := Env -> Env * Flow A.

#[global] Instance handler_ret : MRet Handler :=
  fun A a e => (e, Next a).

#[global] Instance handler_bind : MBind Handler :=
  fun A B k m e =>
    match m e with
    | (e', Next a) => k a e'
    | (e', Returned) => (e', Returned)
    | (e', Panicked msg) => (e', Panicked msg)
    end.

Definition return_ {A : Type} : Handler A := fun e => (e, Returned).
Definition panic {A : Type} (msg : string) : Handler A := fun e => (e, Panicked msg).
Definition get {A : Type} (proj : Env -> A) : Handler A := fun e => (e, Next (proj e)).
Definition modify (f : Env -> Env) : Handler unit := fun e => (f e, Next tt).

(** [if c { body }] with no [else]. *)
Definition when (c : bool) (body : Handler unit) : Handler unit :=
  if c then body else mret tt.

(** [x == nil] and [x != nil] on a value that may be nil. *)
Definition isNil {A : Type} (x : option A) : bool :=
  match x with
  | None => true
  | Some _ => false
  end.

Definition notNil {A : Type} (x : option A) : bool := negb (isNil x).

Definition nilDereference : string :=
  "runtime error: invalid memory address or nil pointer dereference".

(** ** package internal/api *)
Module api.
Import enforcement.
Local Open Scope Z_scope.

Record BallRequest : Type := {
  UserID : string;
  Role : string;
  Action : string;
  Target : string
}.

(** [var req BallRequest]: every field is the empty string. *)
Definition zero : BallRequest :=
  {| UserID := ""; Role := ""; Action := ""; Target := "" |}.

(** The fields of [BallRequest] with their [json] tags. *)
Inductive Field : Type := FUserID | FRole | FAction | FTarget.

Definition tag (f : Field) : string :=
  match f with
  | FUserID => "user_id"
  | FRole => "role"
  | FAction => "action"
  | FTarget => "target"
  end.

Definition fields : list Field := [FUserID; FRole; FAction; FTarget].

Definition store (f : Field) (s : string) (req : BallRequest) : BallRequest :=
  match f with
  | FUserID => {| UserID := s; Role := Role req; Action := Action req; Target := Target req |}
  | FRole => {| UserID := UserID req; Role := s; Action := Action req; Target := Target req |}
  | FAction => {| UserID := UserID req; Role := Role req; Action := s; Target := Target req |}
  | FTarget => {| UserID := UserID req; Role := Role req; Action := Action req; Target := s |}
  end.

(** The field an object key selects: the one whose tag is the key, else
    the first whose tag equals the key under case folding, else none. *)
Definition fieldOf (key : string) : option Field :=
  match List.find (fun f => String.eqb (tag f) key) fields with
  | Some f => Some f
  | None =>
      List.find (fun f => String.eqb (json.foldName (tag f)) (json.foldName key)) fields
  end.

(** [saveError]: only the earliest error is kept. *)
Definition saveError (err : error) (saved : option error) : option error :=
  match saved with
  | Some e => Some e
  | None => Some err
  end.

(** One member of a JSON object decoded into the struct: a key that selects
    no field is skipped; a string is stored in the field; [null] leaves the
    field as it is; any other value leaves it too and is a type error, after
    which decoding goes on. *)
Definition member (st : BallRequest * option error) (kv : string * json.Value)
    : BallRequest * option error :=
  let '(req, saved) := st in
  let '(key, v) := kv in
  match fieldOf key with
  | None => (req, saved)
  | Some f =>
      match v with
      | json.Str s => (store f s req, saved)
      | json.Null => (req, saved)
      | _ => (req, saveError (UnmarshalTypeError (json.kind v) (tag f)) saved)
      end
  end.

(** [json.Unmarshal(data, &req)]. *)
Definition Unmarshal (data : json.Bytes) (req : BallRequest) : BallRequest * option error :=
  match data with
  | json.NotJSON => (req, Some SyntaxError)
  | json.Text json.Null => (req, None)
  | json.Text (json.Object members) => fold_left member members (req, None)
  | json.Text v => (req, Some (UnmarshalTypeError (json.kind v) ""))
  end.

(** An inbound request: its header fields, its body, and the route
    variables [mux.Vars] gives for it. *)
Record Request : Type := {
  Header : gmap string (list string);
  Body : io.Reader;
  Vars : gmap string string
}.

Definition http_Error (msg : string) (code : Z) : Handler unit :=
  modify (fun e => set_w (http.Error msg code (w e)) e).

Definition WriteHeader (code : Z) : Handler unit :=
  modify (fun e => set_w (http.WriteHeader code (w e)) e).

(** [json.NewEncoder(w).Encode(m)] for a [map[string]string]. *)
Definition Encode (m : gmap string string) : Handler unit :=
  modify (fun e => set_w (http.Write (http.JSONLine m) (w e)) e).

(** [client.Set(ctx, key, value, expiration).Err()] on a non-nil client. *)
Definition RedisClient_Set (client : redis.Client) (ctx : context.Context)
    (key value : string) (expiration : time.Duration) : Handler (option error) :=
  fun e =>
    let '(db', err) := redis.Set_ client ctx key value expiration (db e) in
    (set_db db' (record_call (RedisSet ctx key value expiration) e), Next err).

(** [client.Check(user, action, resource)]: the method reads a field of its
    receiver, so a nil client panics before anything is sent. *)
Definition PermitClient_Check (client : option permit.Client) (user : User)
    (action : enforcement.Action) (resource : Resource) : Handler (bool * option error) :=
  match client with
  | None => panic nilDereference
  | Some c =>
      fun e => (record_call (PermitCheck user action resource) e,
                Next (permit.decide c user action resource))
  end.

(** [log] calls are left out; so is the deferred [cancel()], which ends a
    context that nothing uses. *)
Definition throwBallHandler (r : Request) : Handler unit :=
  let '(body, err) := io.ReadAll (Body r) in
  when (notNil err)
    (http_Error "Failed to read request body" http.StatusBadRequest;;
     return_);;
  let '(req, err) := Unmarshal body zero in
  when (notNil err)
    (http_Error "Invalid request payload" http.StatusBadRequest;;
     return_);;
  when (String.eqb (UserID req) "" || String.eqb (Action req) ""
        || String.eqb (Target req) "")
    (http_Error "Missing request fields" http.StatusBadRequest;;
     return_);;
  client ← get RedisClient;
  match client with
  | None =>
      http_Error "Service unavailable" http.StatusServiceUnavailable;;
      return_
  | Some client =>
      let ctx := context.Background in
      let redisKey := "ball:" +:+ UserID req in
      err ← RedisClient_Set client ctx redisKey (Target req) (time.Minute * 5);
      when (notNil err)
        (http_Error "Internal server error" http.StatusInternalServerError;;
         return_);;
      WriteHeader http.StatusAccepted;;
      Encode {[ "message" := "Ball thrown!" ]}
  end.

Definition cupHandler (r : Request) : Handler unit :=
  client ← get PermitClient;
  when (isNil client)
    (http_Error "Permit.io failed initialization" http.StatusInternalServerError);;
  let vars := Vars r in
  let cupID := default "" (vars !! "cup_id") in
  let req := zero in
  let userID := WithRoles [ {| enforcement.Role := "user"; Tenant := "" |} ]
                  (UserBuilder (UserID req)) in
  let resource := ResourceBuilder cupID in
  let '(_, cancel) := context.WithTimeout context.Background (10 * time.Second) in
  '(allowed, err) ← PermitClient_Check client userID "beer" resource;
  when (notNil err)
    (http_Error "Permission check failed" http.StatusInternalServerError;;
     return_);;
  if allowed : bool then
    Encode {[ "message" := "Access granted!"; "cup" := cupID ]}
  else
    http_Error "Access denied!" http.StatusForbidden.

(** The server calls a handler with a response writer of its own. *)
Definition serve (h : Request -> Handler unit) (r : Request) (e : Env) : Env * Flow unit :=
  h r (set_w http.fresh e).
End api.

(** * Start-up and routing

    The rest of the program: package [config] (the functions that give the
    two client handles their values), [internal/api/router.go] and
    [main.go].  Library code is again modelled by its documented behaviour:
    - [os], [godotenv]: the process environment is a finite map; [Load]
      adds the variables of the [.env] file that the environment does not
      have yet;
    - [gorilla/mux]: a request whose path is not in canonical form is
      redirected; otherwise the routes are tried in order, a route matches
      when its path template and its method match, and a path that only
      matches routes of other methods is answered 405, any other 404;
    - [net/http]: the server calls the router for each request with a
      response writer of its own and survives a panic of the handler. *)

(** ** package os *)
Module os.
(** [Getenv]: the value of the variable, empty when it is not set. *)
Definition Getenv (environ : gmap string string) (key : string) : string :=
  default "" (environ !! key).
End os.

(** ** package github.com/joho/godotenv *)
Module godotenv.
(** The [.env] file: it cannot be read or parsed, or it holds variables. *)
Inductive File : Type :=
| Unreadable (err : error)
| Parsed (vars : gmap string string).

(** [Load()]: a variable the environment already has keeps its value. *)
Definition Load (file : File) (environ : gmap string string)
    : gmap string string * option error :=
  match file with
  | Unreadable err => (environ, Some err)
  | Parsed vars => (environ ∪ vars, None)
  end.
End godotenv.

(** ** What the machine gives the process *)
Module host.
Local Open Scope Z_scope.

(** [redis.Options], the fields [RedisInit] sets. *)
Record RedisOptions : Type := {
  Addr : string;
  Password : string;
  DB : Z;
  DialTimeout : time.Duration
}.

(** [config.PermitConfig], the fields [PermitInit] sets. *)
Record PermitConfig : Type := {
  ApiKey : string;
  PdpUrl : string
}.

(** [environ] and [dotenv] are the environment and the [.env] file at
    start; [redisAt] gives the client [redis.NewClient] returns for some
    options and the error of a first [Ping] through it; [keyspace] is what
    the Redis server holds; [permitAt] gives the client [permit.New] returns
    for a configuration; [listen] is the error [http.ListenAndServe] returns
    for an address, [None] when it serves. *)
Record Host : Type := {
  environ : gmap string string;
  dotenv : godotenv.File;
  redisAt : RedisOptions -> redis.Client * option error;
  keyspace : redis.Store;
  permitAt : PermitConfig -> permit.Client;
  listen : string -> option error
}.
End host.

(** How start-up code ends: it goes on, or [log.Fatalf] ends the process. *)
Inductive Boot (A : Type) : Type :=
| Up (a : A)
| Fatal (msg : string).
Arguments Up {A} a.
Arguments Fatal {A} msg.

#[global] Instance boot_ret : MRet Boot := fun A a => Up a.

#[global] Instance boot_bind : MBind Boot :=
  fun A B k m =>
    match m with
    | Up a => k a
    | Fatal msg => Fatal msg
    end.

Definition set_RedisClient (c : option redis.Client) (e : Env) : Env :=
  {| RedisClient := c; PermitClient := PermitClient e;
     db := db e; calls := calls e; w := w e |}.

Definition set_PermitClient (c : option permit.Client) (e : Env) : Env :=
  {| RedisClient := RedisClient e; PermitClient := c;
     db := db e; calls := calls e; w := w e |}.

(** ** package config *)
Module config.
Import host.
Local Open Scope Z_scope.

Definition CheckEnv (environ : gmap string string) (key : string) : Boot string :=
  let value := os.Getenv environ key in
  if String.eqb value ""
  then Fatal ("WARNING!: Environment variable " +:+ key +:+ " is missing")
  else Up value.

(** [RedisInit]: the handle is the new client, or nil when the ping
    through it fails. *)
Definition RedisInit (h : Host) (e : Env) : Env :=
  let '(client, err) :=
    redisAt h {| Addr := "127.0.0.1:6379"; Password := ""; DB := 0;
                 DialTimeout := 20 * time.Second |} in
  let e := set_RedisClient (Some client) e in
  if notNil err then set_RedisClient None e else e.

Definition PermitInit (h : Host) (environ : gmap string string) (e : Env) : Boot Env :=
  apiKey ← CheckEnv environ "API_KEY";
  let permitConfig := {| ApiKey := apiKey; PdpUrl := "https://cloudpdp.api.permit.io" |} in
  mret (set_PermitClient (Some (permitAt h permitConfig)) e).
End config.

(** ** package github.com/gorilla/mux *)
Module mux.
Local Open Scope Z_scope.
Definition StatusMovedPermanently : Z := 301.
Definition StatusNotFound : Z := 404.
Definition StatusMethodNotAllowed : Z := 405.

Definition isSlash (c : ascii) : bool := Ascii.eqb c "/"%char.

(** [strings.Split(s, "/")]. *)
Fixpoint segments (s : string) : list string :=
  match s with
  | EmptyString => [EmptyString]
  | String c s' =>
      if isSlash c then EmptyString :: segments s'
      else
        match segments s' with
        | x :: xs => String c x :: xs
        | [] => [String c EmptyString]
        end
  end.

(** [strings.Join(l, "/")]. *)
Fixpoint join (l : list string) : string :=
  match l with
  | [] => ""
  | [x] => x
  | x :: rest => x +:+ "/" +:+ join rest
  end.

(** One element of a path met by [path.Clean]: an empty one and [.] are
    dropped, [..] takes back the element before it, if any. *)
Definition cleanStep (kept : list string) (elem : string) : list string :=
  if String.eqb elem "" || String.eqb elem "." then kept
  else if String.eqb elem ".." then removelast kept
  else kept ++ [elem].

(** [path.Clean] on a path that begins with a slash. *)
Definition Clean (p : string) : string :=
  "/" +:+ join (fold_left cleanStep (segments p) []).

Fixpoint endsWithSlash (s : string) : bool :=
  match s with
  | EmptyString => false
  | String c EmptyString => isSlash c
  | String _ s' => endsWithSlash s'
  end.

Definition beginsWithSlash (s : string) : bool :=
  match s with
  | String c _ => isSlash c
  | EmptyString => false
  end.

(** [cleanPath]: the canonical form of a URL path, with its trailing
    slash kept. *)
Definition cleanPath (p : string) : string :=
  if String.eqb p "" then "/"
  else
    let p := if beginsWithSlash p then p else "/" +:+ p in
    let np := Clean p in
    if endsWithSlash p && negb (String.eqb np "/") then np +:+ "/" else np.

(** A path template split at its slashes: literal text, or a variable
    [{name}], which stands for one or more characters other than a slash. *)
Inductive Part : Type :=
| Lit (text : string)
| Var (name : string).

(** The variables a template gives for the elements of a path, if it
    matches them. *)
Fixpoint matchParts (tpl : list Part) (elems : list string) : option (gmap string string) :=
  match tpl, elems with
  | [], [] => Some ∅
  | Lit text :: tpl', x :: elems' =>
      if String.eqb text x then matchParts tpl' elems' else None
  | Var name :: tpl', x :: elems' =>
      if String.eqb x "" then None
      else
        match matchParts tpl' elems' with
        | Some vars => Some (<[name := x]> vars)
        | None => None
        end
  | _, _ => None
  end.

(** A template matches the whole path, which begins with a slash. *)
Definition matchPath (tpl : list Part) (p : string) : option (gmap string string) :=
  match segments p with
  | EmptyString :: elems => matchParts tpl elems
  | _ => None
  end.

Record Route : Type := {
  template : list Part;
  methods : list string;
  handler : api.Request -> Handler unit
}.

(** [HandleFunc(path, f).Methods(m)], with the path given split. *)
Definition HandleFunc (tpl : list Part) (f : api.Request -> Handler unit)
    (m : list string) : Route :=
  {| template := tpl; methods := m; handler := f |}.

Inductive RouteMatch : Type :=
| Matched (route : Route) (vars : gmap string string)
| ErrMethodMismatch
| ErrNotFound.

Definition hasMethod (m : string) (rt : Route) : bool :=
  existsb (String.eqb m) (methods rt).

(** [Router.Match]: the first route whose path and method both match;
    failing that, whether some route matched the path alone. *)
Fixpoint Match (routes : list Route) (method p : string) (mismatch : bool) : RouteMatch :=
  match routes with
  | [] => if mismatch then ErrMethodMismatch else ErrNotFound
  | rt :: rest =>
      match matchPath (template rt) p with
      | None => Match rest method p mismatch
      | Some vars =>
          if hasMethod method rt then Matched rt vars
          else Match rest method p true
      end
  end.

(** An inbound request as the server hands it to the router. *)
Record Inbound : Type := {
  Method : string;
  Path : string;
  Header : gmap string (list string);
  Body : io.Reader
}.

Definition ServeHTTP (routes : list Route) (req : Inbound) : Handler unit :=
  if negb (String.eqb (cleanPath (Path req)) (Path req))
  then api.WriteHeader StatusMovedPermanently;; return_
  else
    match Match routes (Method req) (Path req) false with
    | Matched rt vars =>
        handler rt {| api.Header := Header req; api.Body := Body req; api.Vars := vars |}
    | ErrMethodMismatch => api.WriteHeader StatusMethodNotAllowed
    | ErrNotFound => api.http_Error "404 page not found" StatusNotFound
    end.
End mux.

(** ** internal/api/router.go *)
Module router.
Import mux.

Definition Router : list Route :=
  [ HandleFunc [Lit "throw"] api.throwBallHandler ["POST"];
    HandleFunc [Lit "cup"; Var "cup_id"] api.cupHandler ["GET"] ].
End router.

(** ** main.go *)
Module main.
Import host.

(** The process state before [main] runs: both handles are nil. *)
Definition initial (h : Host) : Env :=
  {| RedisClient := None; PermitClient := None; db := keyspace h; calls := [];
     w := http.fresh |}.

(** [main] up to the point where the server serves: the state requests
    are served in, or the fatal message. *)
Definition main (h : Host) : Boot Env :=
  let '(environ, err) := godotenv.Load (dotenv h) (environ h) in
  if notNil err then Fatal "Failed to load .env variables"
  else
    let e := config.RedisInit h (initial h) in
    e ← config.PermitInit h environ e;
    let r := router.Router in
    if notNil (listen h ":1224") then Fatal "Server failed to start trekking"
    else mret e.

(** The server serves one request: the router runs on a fresh response
    writer. *)
Definition serve (req : mux.Inbound) (e : Env) : Env * Flow unit :=
  mux.ServeHTTP router.Router req (set_w http.fresh e).

(** ... and a run of requests, one after the other; a panic ends only the
    request it occurs in. *)
Definition serveAll (reqs : list mux.Inbound) (e : Env) : Env :=
  fold_left (λ e req, (serve req e).1) reqs e.
End main.

(** * Properties *)

Import enforcement.
Import api.
Local Open Scope Z_scope.

(** The writer after a single [http.Error] on a fresh one. *)
Definition plain (code : Z) (msg : string) : http.ResponseWriter :=
  {| http.status := Some code; http.written := [http.Line msg] |}.

(** The request's body reads to the end and decodes, without error, to
    [req]. *)
Definition carries (r : Request) (req : BallRequest) : Prop :=
  ∃ data, Body r = io.Holds data ∧ Unmarshal data zero = (req, None).

(** ... and [user_id], [action] and [target] are not empty. *)
Definition valid (r : Request) (req : BallRequest) : Prop :=
  carries r req ∧ UserID req ≠ "" ∧ Action req ≠ "" ∧ Target req ≠ "".

(** The body cannot be read, or does not decode, or decodes with an empty
    [user_id], [action] or [target]. *)
Inductive malformed (r : Request) : Prop :=
| unreadable sofar err :
    Body r = io.Broken sofar err → malformed r
| undecodable data req err :
    Body r = io.Holds data → Unmarshal data zero = (req, Some err) → malformed r
| incomplete req :
    carries r req → UserID req = "" ∨ Action req = "" ∨ Target req = "" →
    malformed r.

(** The cache key of a user and the write a throw issues. *)
Definition ballKey (user_id : string) : string := "ball:" +:+ user_id.

Definition fiveMinutes : time.Duration := 300 * time.Second.

Definition ballWrite (req : BallRequest) : Call :=
  RedisSet context.Background (ballKey (UserID req)) (Target req) fiveMinutes.

(** A cache that answers every SET without error. *)
Definition reachable (c : redis.Client) : Prop :=
  ∀ db key value ttl, redis.fault c db key value ttl = None.

(** The subject and the route variable of a cup check. *)
Definition cupParam (r : Request) : string := default "" (Vars r !! "cup_id").

(** Two JSON values differ only in the value of "role": without their
    members named [role] they are the same value. *)
Definition isRole (kv : string * json.Value) : bool := String.eqb kv.1 "role".

Definition withoutRole (v : json.Value) : json.Value :=
  match v with
  | json.Object members => json.Object (List.filter (λ kv, negb (isRole kv)) members)
  | _ => v
  end.

Definition differOnlyInRole (v1 v2 : json.Value) : Prop :=
  withoutRole v1 = withoutRole v2.

(** Every member named [role] is a JSON string or [null]. *)
Definition textual (v : json.Value) : bool :=
  match v with
  | json.Str _ | json.Null => true
  | _ => false
  end.

Definition roleTextual (v : json.Value) : bool :=
  match v with
  | json.Object members => forallb (λ kv, negb (isRole kv) || textual kv.2) members
  | _ => true
  end.

(** Two decoding results that agree on everything but [Role]. *)
Definition agree (a b : BallRequest * option error) : Prop :=
  UserID a.1 = UserID b.1 ∧ Action a.1 = Action b.1 ∧ Target a.1 = Target b.1
  ∧ a.2 = b.2.

(** *** Sample inputs *)

Definition throwBody (user_id role action target : json.Value) : json.Value :=
  json.Object [("user_id", user_id); ("role", role); ("action", action);
               ("target", target)].

Definition post (v : json.Value) : Request :=
  {| Header := ∅; Body := io.Holds (json.Text v); Vars := ∅ |}.

Definition aliceThrow (target : string) : Request :=
  post (throwBody (json.Str "alice") (json.Str "player") (json.Str "throw")
          (json.Str target)).

Definition aliceReq (target : string) : BallRequest :=
  {| UserID := "alice"; Role := "player"; Action := "throw"; Target := target |}.

Definition getCup (cup_id : string) : Request :=
  {| Header := ∅; Body := io.Holds json.NotJSON; Vars := {[ "cup_id" := cup_id ]} |}.

Definition liveRedis : redis.Client := {| redis.fault := λ _ _ _ _, None |}.

Definition downRedis : redis.Client :=
  {| redis.fault := λ _ _ _ _, Some (RedisError "connection refused") |}.

(** A policy service that permits nothing, one that permits everything,
    and one that fails. *)
Definition denyAll : permit.Client := {| permit.decide := λ _ _ _, (false, None) |}.
Definition allowAll : permit.Client := {| permit.decide := λ _ _ _, (true, None) |}.
Definition pdpDown : permit.Client :=
  {| permit.decide := λ _ _ _, (false, Some (PermitError "pdp unreachable")) |}.

(** The process state after start-up with the given client handles. *)
Definition started (rc : option redis.Client) (pc : option permit.Client) : Env :=
  {| RedisClient := rc; PermitClient := pc; db := ∅; calls := []; w := http.fresh |}.

(** A member whose key selects a field of [BallRequest]. *)
Definition known (kv : string * json.Value) : bool :=
  match fieldOf kv.1 with
  | Some _ => true
  | None => false
  end.

(** The policy query of a cup request. *)
Definition cupSubject : User :=
  {| Key := ""; Roles := [ {| enforcement.Role := "user"; Tenant := "" |} ] |}.

Definition cupCheck (r : Request) : Call :=
  PermitCheck cupSubject "beer" (ResourceBuilder (cupParam r)).

(** *** Start-up and routing *)

(** The options [RedisInit] dials with and the configuration [PermitInit]
    builds from an API key. *)
Definition localRedis : host.RedisOptions :=
  {| host.Addr := "127.0.0.1:6379"; host.Password := ""; host.DB := 0;
     host.DialTimeout := 20 * time.Second |}.

Definition cloudPdp (apiKey : string) : host.PermitConfig :=
  {| host.ApiKey := apiKey; host.PdpUrl := "https://cloudpdp.api.permit.io" |}.

Fixpoint hasSlash (s : string) : bool :=
  match s with
  | EmptyString => false
  | String c s' => mux.isSlash c || hasSlash s'
  end.

(** A cup id the router lets through: one non-empty path element that is
    neither [.] nor [..]. *)
Definition cupIdOk (x : string) : Prop :=
  x ≠ "" ∧ hasSlash x = false ∧ x ≠ "." ∧ x ≠ "..".

(** The request a route hands to its handler. *)
Definition routed (req : mux.Inbound) (vars : gmap string string) : Request :=
  {| Header := mux.Header req; Body := mux.Body req; Vars := vars |}.

(** A machine with a [.env] file that holds the API key, a Redis server
    that answers, and a policy service that denies. *)
Definition laptop : host.Host :=
  {| host.environ := ∅;
     host.dotenv := godotenv.Parsed {[ "API_KEY" := "permit_key_1" ]};
     host.redisAt := λ _, (liveRedis, None);
     host.keyspace := ∅;
     host.permitAt := λ _, denyAll;
     host.listen := λ _, None |}.

(** The same machine with the Redis server not running. *)
Definition laptopNoRedis : host.Host :=
  {| host.environ := ∅;
     host.dotenv := godotenv.Parsed {[ "API_KEY" := "permit_key_1" ]};
     host.redisAt := λ _, (downRedis, Some (RedisError "connection refused"));
     host.keyspace := ∅;
     host.permitAt := λ _, denyAll;
     host.listen := λ _, None |}.

Definition postThrow (v : json.Value) : mux.Inbound :=
  {| mux.Method := "POST"; mux.Path := "/throw"; mux.Header := ∅;
     mux.Body := io.Holds (json.Text v) |}.

Definition getPath (p : string) : mux.Inbound :=
  {| mux.Method := "GET"; mux.Path := p; mux.Header := ∅;
     mux.Body := io.Holds json.NotJSON |}.

(** The outbound calls the server makes of its own accord: a write of a
    non-empty target under the key of a non-empty user with a five-minute
    expiry, or a check of the fixed subject and action on a cup id the
    router lets through. *)
Definition ownCall (c : Call) : Prop :=
  (∃ user target, user ≠ "" ∧ target ≠ ""
     ∧ c = RedisSet context.Background (ballKey user) target fiveMinutes)
  ∨ (∃ x, cupIdOk x ∧ c = PermitCheck cupSubject "beer" (ResourceBuilder x)).

(** The statuses the server answers with. *)
Definition statuses : list Z := [200; 202; 301; 400; 403; 404; 405; 500; 503].

Lemma eqb_empty_false (s : string) : s ≠ "" → String.eqb s "" = false.
Proof. intros H. by apply String.eqb_neq. Qed.

Lemma eqb_empty_true (s : string) : s = "" → String.eqb s "" = true.
Proof. intros H. by apply String.eqb_eq. Qed.

(** ** The model on concrete inputs *)

(** A key selects a field by its tag, else under case folding. *)
Example fieldOf_exact : fieldOf "target" = Some FTarget.
Proof. reflexivity. Qed.

Example fieldOf_folded : fieldOf "User_ID" = Some FUserID.
Proof. reflexivity. Qed.

Example fieldOf_unknown : fieldOf "userid" = None.
Proof. reflexivity. Qed.

(** A repeated key overwrites, [null] leaves the field, an unknown key is
    skipped. *)
Example Unmarshal_members :
  Unmarshal (json.Text (json.Object [("target", json.Str "cup1"); ("colour", json.Bool true);
                                     ("target", json.Str "cup2"); ("target", json.Null)]))
    zero
  = ({| UserID := ""; Role := ""; Action := ""; Target := "cup2" |}, None).
Proof. reflexivity. Qed.

(** A value of the wrong type is an error; the other members are still
    decoded. *)
Example Unmarshal_type_error :
  Unmarshal (json.Text (json.Object [("role", json.Number "7"); ("target", json.Str "cup3")]))
    zero
  = ({| UserID := ""; Role := ""; Action := ""; Target := "cup3" |},
     Some (UnmarshalTypeError "number" "role")).
Proof. reflexivity. Qed.

Example Unmarshal_null : Unmarshal (json.Text json.Null) zero = (zero, None).
Proof. reflexivity. Qed.

Example Unmarshal_array :
  Unmarshal (json.Text (json.Array [])) zero = (zero, Some (UnmarshalTypeError "array" "")).
Proof. reflexivity. Qed.

(** The scenario of the specification: alice throws at cup3. *)
Example alice_throws_cup3 :
  let e' := (serve throwBallHandler (aliceThrow "cup3") (started (Some liveRedis) None)).1 in
  http.status (w e') = Some 202
  ∧ db e' !! "ball:alice" = Some ("cup3", 300000000000).
Proof. split; reflexivity. Qed.

Example cup3_denied :
  http.status (w (serve cupHandler (getCup "cup3") (started None (Some denyAll))).1)
  = Some 403.
Proof. reflexivity. Qed.

Example cup3_check_fails :
  serve cupHandler (getCup "cup3") (started None (Some pdpDown))
  = (set_w (plain 500 "Permission check failed")
       (record_call
          (PermitCheck
             {| Key := ""; Roles := [ {| enforcement.Role := "user"; Tenant := "" |} ] |}
             "beer" {| Type_ := "cup3" |})
          (started None (Some pdpDown))),
     Returned).
Proof. reflexivity. Qed.

(** Unfolds the monad operations met in a handler body and computes. *)
Ltac run :=
  unfold mbind, mret, handler_bind, handler_ret, when, return_, panic, get,
    modify, http_Error, api.WriteHeader, Encode, RedisClient_Set,
    PermitClient_Check, redis.Set_;
  cbn -[Z.mul time.Minute time.Second String.append].

(** ** The paths through [throwBallHandler] *)
Section ThrowPaths.
Variables (r : Request) (e : Env).

Lemma throw_unreadable sofar err :
  Body r = io.Broken sofar err →
  serve throwBallHandler r e
  = (set_w (plain 400 "Failed to read request body") e, Returned).
Proof. intros HB. unfold serve, throwBallHandler. rewrite HB. reflexivity. Qed.

Lemma throw_undecodable data req err :
  Body r = io.Holds data →
  Unmarshal data zero = (req, Some err) →
  serve throwBallHandler r e
  = (set_w (plain 400 "Invalid request payload") e, Returned).
Proof.
  intros HB HU. unfold serve, throwBallHandler. rewrite HB. cbn.
  rewrite HU. reflexivity.
Qed.

Lemma throw_missing data req :
  Body r = io.Holds data →
  Unmarshal data zero = (req, None) →
  UserID req = "" ∨ Action req = "" ∨ Target req = "" →
  serve throwBallHandler r e
  = (set_w (plain 400 "Missing request fields") e, Returned).
Proof.
  intros HB HU Hempty. unfold serve, throwBallHandler. rewrite HB. cbn.
  rewrite HU. cbn.
  assert (String.eqb (UserID req) "" || String.eqb (Action req) ""
          || String.eqb (Target req) "" = true) as ->; [|reflexivity].
  destruct Hempty as [H|[H|H]]; rewrite (eqb_empty_true _ H);
    by rewrite ?orb_true_r.
Qed.

Section Valid.
Variables (data : json.Bytes) (req : BallRequest).
Hypothesis HB : Body r = io.Holds data.
Hypothesis HU : Unmarshal data zero = (req, None).
Hypothesis Huser : UserID req ≠ "".
Hypothesis Haction : Action req ≠ "".
Hypothesis Htarget : Target req ≠ "".

Lemma throw_unavailable :
  RedisClient e = None →
  serve throwBallHandler r e
  = (set_w (plain 503 "Service unavailable") e, Returned).
Proof.
  intros HC. unfold serve, throwBallHandler. rewrite HB. cbn.
  rewrite HU. cbn.
  rewrite !eqb_empty_false by done. run. rewrite HC. reflexivity.
Qed.

Lemma throw_write_error client err :
  RedisClient e = Some client →
  redis.fault client (db e) ("ball:" +:+ UserID req) (Target req) (time.Minute * 5)
  = Some err →
  serve throwBallHandler r e
  = (set_w (plain 500 "Internal server error")
       (record_call (RedisSet context.Background ("ball:" +:+ UserID req)
                       (Target req) (time.Minute * 5)) e),
     Returned).
Proof.
  intros HC HF. unfold serve, throwBallHandler. rewrite HB. cbn.
  rewrite HU. cbn.
  rewrite !eqb_empty_false by done. run. rewrite HC. run. rewrite HF.
  reflexivity.
Qed.

Lemma throw_written client :
  RedisClient e = Some client →
  redis.fault client (db e) ("ball:" +:+ UserID req) (Target req) (time.Minute * 5)
  = None →
  serve throwBallHandler r e
  = (set_w {| http.status := Some 202;
              http.written := [http.JSONLine {[ "message" := "Ball thrown!" ]}] |}
       (set_db (<[ "ball:" +:+ UserID req := (Target req, time.Minute * 5) ]> (db e))
          (record_call (RedisSet context.Background ("ball:" +:+ UserID req)
                          (Target req) (time.Minute * 5)) e)),
     Next tt).
Proof.
  intros HC HF. unfold serve, throwBallHandler. rewrite HB. cbn.
  rewrite HU. cbn.
  rewrite !eqb_empty_false by done. run. rewrite HC. run. rewrite HF.
  reflexivity.
Qed.
End Valid.
End ThrowPaths.

(** ** Throw submission *)

(** C1: a throw whose body decodes with non-empty [user_id], [action] and
    [target], served with a non-nil cache client whose write succeeds,
    issues exactly one cache write, of [target] under ["ball:" + user_id]
    with a five-minute expiry, leaves every other key as it was, and answers
    202 with [{"message":"Ball thrown!"}]. *)
Theorem throw_accepted (r : Request) (e : Env) (req : BallRequest)
    (client : redis.Client) :
  valid r req →
  RedisClient e = Some client →
  redis.fault client (db e) (ballKey (UserID req)) (Target req) fiveMinutes = None →
  ∃ e', serve throwBallHandler r e = (e', Next tt)
    ∧ calls e' = calls e ++ [ballWrite req]
    ∧ db e' = <[ballKey (UserID req) := (Target req, fiveMinutes)]> (db e)
    ∧ (∀ k, k ≠ ballKey (UserID req) → db e' !! k = db e !! k)
    ∧ http.status (w e') = Some 202
    ∧ http.written (w e') = [http.JSONLine {[ "message" := "Ball thrown!" ]}].
Proof.
  intros ((data & HB & HU) & Hu & Ha & Ht) HC HF.
  eexists. split; [by eapply throw_written|].
  cbn. repeat split; try reflexivity.
  intros k Hk. by rewrite lookup_insert_ne.
Qed.

Lemma throw_accepted_witness :
  ∃ e', serve throwBallHandler (aliceThrow "cup3") (started (Some liveRedis) None)
        = (e', Next tt)
    ∧ calls e' = [] ++ [ballWrite (aliceReq "cup3")]
    ∧ db e' = <[ballKey "alice" := ("cup3", fiveMinutes)]> ∅
    ∧ (∀ k, k ≠ ballKey "alice" → db e' !! k = (∅ : redis.Store) !! k)
    ∧ http.status (w e') = Some 202
    ∧ http.written (w e') = [http.JSONLine {[ "message" := "Ball thrown!" ]}].
Proof.
  apply (throw_accepted (aliceThrow "cup3") (started (Some liveRedis) None)
           (aliceReq "cup3") liveRedis).
  - split; [eexists; split; reflexivity | done].
  - reflexivity.
  - reflexivity.
Defined.

(** C2: a throw whose body cannot be read, does not decode as JSON into the
    request, or decodes with an empty [user_id], [action] or [target] is
    answered 400 and returns before any outbound call: no cache write is
    issued and the state other than the response is as before. *)
Theorem throw_rejected (r : Request) (e : Env) :
  malformed r →
  ∃ msg, serve throwBallHandler r e = (set_w (plain 400 msg) e, Returned)
    ∧ http.status (w (serve throwBallHandler r e).1) = Some http.StatusBadRequest
    ∧ calls (serve throwBallHandler r e).1 = calls e
    ∧ db (serve throwBallHandler r e).1 = db e.
Proof.
  intros [sofar err HB | data req err HB HU | req (data & HB & HU) Hempty].
  - eexists. by rewrite (throw_unreadable r e sofar err HB).
  - eexists. by rewrite (throw_undecodable r e data req err HB HU).
  - eexists. by rewrite (throw_missing r e data req HB HU Hempty).
Qed.

Lemma throw_rejected_witness :
  ∃ msg, serve throwBallHandler
           (post (throwBody (json.Str "alice") (json.Str "player") (json.Str "throw")
                    (json.Str "")))
           (started (Some liveRedis) None)
         = (set_w (plain 400 msg) (started (Some liveRedis) None), Returned)
    ∧ http.status (w (serve throwBallHandler
           (post (throwBody (json.Str "alice") (json.Str "player") (json.Str "throw")
                    (json.Str "")))
           (started (Some liveRedis) None)).1) = Some http.StatusBadRequest
    ∧ calls (serve throwBallHandler
           (post (throwBody (json.Str "alice") (json.Str "player") (json.Str "throw")
                    (json.Str "")))
           (started (Some liveRedis) None)).1 = []
    ∧ db (serve throwBallHandler
           (post (throwBody (json.Str "alice") (json.Str "player") (json.Str "throw")
                    (json.Str "")))
           (started (Some liveRedis) None)).1 = ∅.
Proof.
  apply (throw_rejected _ (started (Some liveRedis) None)).
  apply (incomplete _ (aliceReq "")).
  - eexists. split; reflexivity.
  - right. right. reflexivity.
Defined.

(** C4: a valid throw served while the cache client handle is nil is
    answered 503; no cache write is issued and the state other than the
    response is as before. *)
Theorem throw_cache_absent (r : Request) (e : Env) (req : BallRequest) :
  valid r req →
  RedisClient e = None →
  serve throwBallHandler r e
  = (set_w (plain http.StatusServiceUnavailable "Service unavailable") e, Returned)
  ∧ calls (serve throwBallHandler r e).1 = calls e
  ∧ db (serve throwBallHandler r e).1 = db e.
Proof.
  intros ((data & HB & HU) & Hu & Ha & Ht) HC.
  by rewrite (throw_unavailable r e data req HB HU Hu Ha Ht HC).
Qed.

Lemma throw_cache_absent_witness :
  serve throwBallHandler (aliceThrow "cup3") (started None None)
  = (set_w (plain 503 "Service unavailable") (started None None), Returned)
  ∧ calls (serve throwBallHandler (aliceThrow "cup3") (started None None)).1 = []
  ∧ db (serve throwBallHandler (aliceThrow "cup3") (started None None)).1 = ∅.
Proof.
  apply (throw_cache_absent (aliceThrow "cup3") (started None None) (aliceReq "cup3")).
  - split; [eexists; split; reflexivity | done].
  - reflexivity.
Defined.

(** C7: a valid throw whose single cache write returns an error is answered
    500; the write is the only outbound call (no retry) and nothing but the
    call log and the response differs from the state before. *)
Theorem throw_write_failed (r : Request) (e : Env) (req : BallRequest)
    (client : redis.Client) (err : error) :
  valid r req →
  RedisClient e = Some client →
  redis.fault client (db e) (ballKey (UserID req)) (Target req) fiveMinutes = Some err →
  serve throwBallHandler r e
  = (set_w (plain http.StatusInternalServerError "Internal server error")
       (record_call (ballWrite req) e), Returned)
  ∧ calls (serve throwBallHandler r e).1 = calls e ++ [ballWrite req]
  ∧ db (serve throwBallHandler r e).1 = db e.
Proof.
  intros ((data & HB & HU) & Hu & Ha & Ht) HC HF.
  by rewrite (throw_write_error r e data req HB HU Hu Ha Ht client err HC HF).
Qed.

Lemma throw_write_failed_witness :
  serve throwBallHandler (aliceThrow "cup3") (started (Some downRedis) None)
  = (set_w (plain 500 "Internal server error")
       (record_call (ballWrite (aliceReq "cup3")) (started (Some downRedis) None)),
     Returned)
  ∧ calls (serve throwBallHandler (aliceThrow "cup3") (started (Some downRedis) None)).1
    = [] ++ [ballWrite (aliceReq "cup3")]
  ∧ db (serve throwBallHandler (aliceThrow "cup3") (started (Some downRedis) None)).1
    = ∅.
Proof.
  apply (throw_write_failed (aliceThrow "cup3") (started (Some downRedis) None)
           (aliceReq "cup3") downRedis (RedisError "connection refused")).
  - split; [eexists; split; reflexivity | done].
  - reflexivity.
  - reflexivity.
Defined.

(** C9: two valid throws of one user served one after the other against a
    reachable cache both write the key ["ball:" + user_id]; afterwards the
    key holds the second target, and the key space is what the second throw
    alone would have left: the first value is overwritten. *)
Theorem throw_last_write_wins (r1 r2 : Request) (e : Env) (req1 req2 : BallRequest)
    (client : redis.Client) :
  valid r1 req1 →
  valid r2 req2 →
  UserID req1 = UserID req2 →
  RedisClient e = Some client →
  reachable client →
  let e1 := (serve throwBallHandler r1 e).1 in
  let e2 := (serve throwBallHandler r2 e1).1 in
  calls e2 = calls e
             ++ [RedisSet context.Background (ballKey (UserID req1)) (Target req1)
                   fiveMinutes;
                 RedisSet context.Background (ballKey (UserID req1)) (Target req2)
                   fiveMinutes]
  ∧ db e2 !! ballKey (UserID req1) = Some (Target req2, fiveMinutes)
  ∧ db e2 = <[ballKey (UserID req1) := (Target req2, fiveMinutes)]> (db e)
  ∧ db e2 = db (serve throwBallHandler r2 e).1.
Proof.
  intros ((d1 & HB1 & HU1) & Hu1 & Ha1 & Ht1) ((d2 & HB2 & HU2) & Hu2 & Ha2 & Ht2)
    Hsame HC Hlive e1 e2.
  subst e2 e1.
  rewrite (throw_written r1 e d1 req1 HB1 HU1 Hu1 Ha1 Ht1 client HC (Hlive _ _ _ _)).
  rewrite (throw_written r2 e d2 req2 HB2 HU2 Hu2 Ha2 Ht2 client HC (Hlive _ _ _ _)).
  erewrite (throw_written r2 _ d2 req2 HB2 HU2 Hu2 Ha2 Ht2 client);
    [| exact HC | apply Hlive].
  cbn -[Z.mul time.Minute String.append]. rewrite <- Hsame.
  rewrite insert_insert_eq, lookup_insert_eq, <- app_assoc.
  done.
Qed.

Lemma throw_last_write_wins_witness :
  let e1 := (serve throwBallHandler (aliceThrow "cup3") (started (Some liveRedis) None)).1 in
  let e2 := (serve throwBallHandler (aliceThrow "cup7") e1).1 in
  calls e2 = [] ++ [RedisSet context.Background (ballKey "alice") "cup3" fiveMinutes;
                    RedisSet context.Background (ballKey "alice") "cup7" fiveMinutes]
  ∧ db e2 !! ballKey "alice" = Some ("cup7", fiveMinutes)
  ∧ db e2 = <[ballKey "alice" := ("cup7", fiveMinutes)]> ∅
  ∧ db e2 = db (serve throwBallHandler (aliceThrow "cup7")
                  (started (Some liveRedis) None)).1.
Proof.
  apply (throw_last_write_wins (aliceThrow "cup3") (aliceThrow "cup7")
           (started (Some liveRedis) None) (aliceReq "cup3") (aliceReq "cup7") liveRedis).
  - split; [eexists; split; reflexivity | done].
  - split; [eexists; split; reflexivity | done].
  - reflexivity.
  - reflexivity.
  - intros ? ? ? ?. reflexivity.
Defined.

(** ** Cup authorization *)

Section CupPaths.
Variables (r : Request) (e : Env).

Lemma cup_nil :
  PermitClient e = None →
  serve cupHandler r e
  = (set_w (plain 500 "Permit.io failed initialization") e, Panicked nilDereference).
Proof. intros HC. unfold serve, cupHandler. run. rewrite HC. reflexivity. Qed.

Lemma cup_checked client :
  PermitClient e = Some client →
  serve cupHandler r e
  = let user := {| Key := ""; Roles := [ {| enforcement.Role := "user"; Tenant := "" |} ] |} in
    let resource := {| Type_ := cupParam r |} in
    let e1 := record_call (PermitCheck user "beer" resource) e in
    match permit.decide client user "beer" resource with
    | (_, Some _) => (set_w (plain 500 "Permission check failed") e1, Returned)
    | (true, None) =>
        (set_w {| http.status := Some 200;
                  http.written :=
                    [http.JSONLine {[ "message" := "Access granted!";
                                      "cup" := cupParam r ]}] |} e1,
         Next tt)
    | (false, None) => (set_w (plain 403 "Access denied!") e1, Next tt)
    end.
Proof.
  intros HC. unfold serve, cupHandler. run. rewrite HC. run.
  unfold cupParam, UserBuilder, WithRoles, ResourceBuilder. cbn.
  by destruct (permit.decide client _ _ _) as [[] []].
Qed.
End CupPaths.

(** C3: with a non-nil policy client, a cup request is answered 200 with a
    JSON object holding ["message":"Access granted!"] and the [cup_id] route
    variable under ["cup"] when the check permits without error, 403 when it
    denies without error, and 500 when it returns an error. *)
Theorem cup_decision (r : Request) (e : Env) (client : permit.Client)
    (allowed : bool) (err : option error) :
  PermitClient e = Some client →
  permit.decide client
    {| Key := ""; Roles := [ {| enforcement.Role := "user"; Tenant := "" |} ] |}
    "beer" (ResourceBuilder (cupParam r)) = (allowed, err) →
  let e' := (serve cupHandler r e).1 in
  match err, allowed with
  | Some _, _ => http.status (w e') = Some 500
  | None, true =>
      http.status (w e') = Some 200
      ∧ ∃ obj, http.written (w e') = [http.JSONLine obj]
          ∧ obj !! "message" = Some "Access granted!"
          ∧ obj !! "cup" = Some (cupParam r)
  | None, false => http.status (w e') = Some 403
  end.
Proof.
  intros HC HD e'. subst e'. rewrite (cup_checked r e client HC). cbn zeta.
  unfold ResourceBuilder in HD. rewrite HD.
  destruct err as [err|], allowed; cbn; try reflexivity.
  split; [reflexivity|]. eexists. split; [reflexivity|].
  split; [apply lookup_insert_eq|].
  rewrite lookup_insert_ne by done. apply lookup_singleton_eq.
Qed.

Lemma cup_decision_witness :
  http.status (w (serve cupHandler (getCup "cup3") (started None (Some allowAll))).1)
  = Some 200
  ∧ ∃ obj,
      http.written (w (serve cupHandler (getCup "cup3")
                         (started None (Some allowAll))).1) = [http.JSONLine obj]
      ∧ obj !! "message" = Some "Access granted!"
      ∧ obj !! "cup" = Some (cupParam (getCup "cup3")).
Proof.
  apply (cup_decision (getCup "cup3") (started None (Some allowAll)) allowAll true None).
  - reflexivity.
  - reflexivity.
Defined.

(** C5 (the code departs from it): with a nil policy client the handler
    writes the 500 response and, having no [return] there, goes on to build
    the query and to call [Check] on the nil handle, where it panics. *)
Theorem cup_nil_client_falls_through (r : Request) (rc : option redis.Client)
    (db0 : redis.Store) (log : list Call) (w0 : http.ResponseWriter) :
  serve cupHandler r
    {| RedisClient := rc; PermitClient := None; db := db0; calls := log; w := w0 |}
  = ({| RedisClient := rc; PermitClient := None; db := db0; calls := log;
        w := plain http.StatusInternalServerError "Permit.io failed initialization" |},
     Panicked nilDereference).
Proof. by rewrite cup_nil. Qed.

(** C6: whatever the request's header fields and body, the check a cup
    request issues is for the subject with an empty key and the single role
    ["user"], the action ["beer"], and the resource built from the [cup_id]
    route variable; two requests with the same [cup_id] are served alike. *)
Theorem cup_query_fixed (r : Request) (e : Env) :
  (∀ client, PermitClient e = Some client →
     calls (serve cupHandler r e).1
     = calls e ++ [PermitCheck
                     {| Key := "";
                        Roles := [ {| enforcement.Role := "user"; Tenant := "" |} ] |}
                     "beer" (ResourceBuilder (cupParam r))])
  ∧ (∀ r', cupParam r' = cupParam r →
       serve cupHandler r' e = serve cupHandler r e).
Proof.
  split.
  - intros client HC. rewrite (cup_checked r e client HC). cbn zeta.
    by destruct (permit.decide client _ _ _) as [[] []].
  - intros r' Hcup. destruct (PermitClient e) as [client|] eqn:HC.
    + by rewrite !(cup_checked _ e client HC), Hcup.
    + by rewrite !cup_nil.
Qed.

Lemma cup_query_fixed_witness :
  calls (serve cupHandler (getCup "cup3") (started None (Some denyAll))).1
  = [] ++ [PermitCheck
             {| Key := ""; Roles := [ {| enforcement.Role := "user"; Tenant := "" |} ] |}
             "beer" (ResourceBuilder "cup3")]
  ∧ serve cupHandler
      {| Header := {[ "Authorization" := ["Bearer alice"] ]};
         Body := io.Holds (json.Text (json.Str "alice"));
         Vars := {[ "cup_id" := "cup3" ]} |}
      (started None (Some denyAll))
    = serve cupHandler (getCup "cup3") (started None (Some denyAll)).
Proof.
  split.
  - apply (proj1 (cup_query_fixed (getCup "cup3") (started None (Some denyAll))) denyAll).
    reflexivity.
  - apply (proj2 (cup_query_fixed (getCup "cup3") (started None (Some denyAll)))).
    reflexivity.
Defined.

(** C8 (the code departs from it): the check a cup request issues carries
    no cancellation context.  The handler does create a context with a
    10-second deadline, but drops it, and [Check] has no context parameter. *)
Theorem cup_check_has_no_deadline (r : Request) (rc : option redis.Client)
    (client : permit.Client) (db0 : redis.Store) (log : list Call)
    (w0 : http.ResponseWriter) :
  ∃ c, calls (serve cupHandler r
                {| RedisClient := rc; PermitClient := Some client; db := db0;
                   calls := log; w := w0 |}).1 = log ++ [c]
    ∧ call_context c = None
    ∧ context.Deadline (context.WithTimeout context.Background (10 * time.Second)).1
      = Some (10 * time.Second).
Proof.
  exists (PermitCheck
            {| Key := ""; Roles := [ {| enforcement.Role := "user"; Tenant := "" |} ] |}
            "beer" (ResourceBuilder (cupParam r))).
  erewrite (cup_checked r _ client); [|reflexivity]. cbn zeta.
  split; [|split; reflexivity].
  by destruct (permit.decide client _ _ _) as [[] []].
Qed.

(** ** The role member of a throw body *)

Lemma agree_refl a : agree a a.
Proof. by repeat split. Qed.

Lemma agree_trans a b c : agree a b → agree b c → agree a c.
Proof.
  intros (Hu & Ha & Ht & He) (Hu' & Ha' & Ht' & He').
  repeat split; congruence.
Qed.

Lemma agree_sym a b : agree a b → agree b a.
Proof. intros (Hu & Ha & Ht & He). by repeat split. Qed.

(** Decoding one member keeps two results in agreement. *)
Lemma member_agree a b kv : agree a b → agree (member a kv) (member b kv).
Proof.
  destruct a as [qa sa], b as [qb sb], kv as [key v].
  intros (Hu & Ha & Ht & He). cbn in *. subst sb.
  destruct (fieldOf key) as [f|]; [|by repeat split].
  destruct v; try by repeat split.
  destruct f; by repeat split.
Qed.

(** A member named [role] with a string or [null] value only touches
    [Role]. *)
Lemma member_role a kv :
  isRole kv = true → textual kv.2 = true → agree (member a kv) a.
Proof.
  destruct a as [qa sa], kv as [key v]. unfold isRole. cbn.
  intros ->%String.eqb_eq Hv.
  destruct v; try discriminate; by repeat split.
Qed.

Lemma fold_member_agree members a b :
  agree a b → agree (fold_left member members a) (fold_left member members b).
Proof.
  revert a b. induction members as [|kv members IH]; intros a b Hab; [done|].
  cbn. by apply IH, member_agree.
Qed.

Lemma fold_member_without_role members a :
  forallb (λ kv, negb (isRole kv) || textual kv.2) members = true →
  agree (fold_left member members a)
        (fold_left member (List.filter (λ kv, negb (isRole kv)) members) a).
Proof.
  revert a. induction members as [|kv members IH]; intros a Hall; [apply agree_refl|].
  cbn in Hall. apply andb_true_iff in Hall as [Hkv Hall].
  cbn. destruct (isRole kv) eqn:Hrole; cbn in *.
  - eapply agree_trans; [|by apply IH].
    by apply fold_member_agree, member_role.
  - by apply IH.
Qed.

Lemma Unmarshal_without_role v :
  roleTextual v = true →
  agree (Unmarshal (json.Text v) zero) (Unmarshal (json.Text (withoutRole v)) zero).
Proof.
  destruct v; try (intros _; apply agree_refl).
  intros Hall. by apply fold_member_without_role.
Qed.

(** The handler reads nothing of the decoding result but [UserID],
    [Action], [Target] and the error. *)
Lemma throw_agree r1 r2 d1 d2 e :
  Body r1 = io.Holds d1 → Body r2 = io.Holds d2 →
  agree (Unmarshal d1 zero) (Unmarshal d2 zero) →
  serve throwBallHandler r1 e = serve throwBallHandler r2 e.
Proof.
  intros HB1 HB2. unfold serve, throwBallHandler. rewrite HB1, HB2. cbn.
  destruct (Unmarshal d1 zero) as [[u1 ro1 a1 t1] s1].
  destruct (Unmarshal d2 zero) as [[u2 ro2 a2 t2] s2].
  intros (Hu & Ha & Ht & He). cbn in *. by subst.
Qed.

(** C10, as stated, fails: two bodies that differ only in the value of
    "role", one a string and one a number.  The first throw is accepted
    and written to the cache, the second is answered 400 with no write:
    decoding a number into the string field [Role] is an error. *)
Lemma throw_role_number_rejected :
  let a := throwBody (json.Str "alice") (json.Str "player") (json.Str "throw")
             (json.Str "cup3") in
  let b := throwBody (json.Str "alice") (json.Number "7") (json.Str "throw")
             (json.Str "cup3") in
  let env := started (Some liveRedis) None in
  differOnlyInRole a b
  ∧ http.status (w (serve throwBallHandler (post a) env).1) = Some 202
  ∧ http.status (w (serve throwBallHandler (post b) env).1) = Some 400
  ∧ calls (serve throwBallHandler (post a) env).1 = [ballWrite (aliceReq "cup3")]
  ∧ calls (serve throwBallHandler (post b) env).1 = []
  ∧ serve throwBallHandler (post a) env ≠ serve throwBallHandler (post b) env.
Proof. cbv zeta. repeat split; try reflexivity. discriminate. Qed.

(** C10, amended: two throw bodies that differ only in the value of "role",
    where each "role" member present is a JSON string or [null], are served
    alike: same status and response body, same cache write, same state
    afterwards. *)
Theorem throw_ignores_role (r1 r2 : Request) (v1 v2 : json.Value) (e : Env) :
  Body r1 = io.Holds (json.Text v1) →
  Body r2 = io.Holds (json.Text v2) →
  differOnlyInRole v1 v2 →
  roleTextual v1 = true →
  roleTextual v2 = true →
  serve throwBallHandler r1 e = serve throwBallHandler r2 e.
Proof.
  intros HB1 HB2 Hdiff H1 H2.
  apply (throw_agree r1 r2 _ _ e HB1 HB2).
  eapply agree_trans; [by apply Unmarshal_without_role|].
  rewrite Hdiff. by apply agree_sym, Unmarshal_without_role.
Qed.

Lemma throw_ignores_role_witness :
  serve throwBallHandler (aliceThrow "cup3") (started (Some liveRedis) None)
  = serve throwBallHandler
      (post (json.Object [("user_id", json.Str "alice"); ("action", json.Str "throw");
                          ("target", json.Str "cup3")]))
      (started (Some liveRedis) None).
Proof.
  apply (throw_ignores_role _ _
           (throwBody (json.Str "alice") (json.Str "player") (json.Str "throw")
              (json.Str "cup3"))
           (json.Object [("user_id", json.Str "alice"); ("action", json.Str "throw");
                         ("target", json.Str "cup3")])).
  - reflexivity.
  - reflexivity.
  - reflexivity.
  - reflexivity.
  - reflexivity.
Defined.

(** * Further properties of the handlers *)

Lemma malformed_or_valid (r : Request) : malformed r ∨ ∃ req, valid r req.
Proof.
  destruct (Body r) as [data|sofar err] eqn:HB; [|left; by eapply unreadable].
  destruct (Unmarshal data zero) as [req [err|]] eqn:HU;
    [left; by eapply undecodable|].
  destruct (String.eqb (UserID req) "") eqn:Hu;
    [left; apply (incomplete r req); [by exists data|left; by apply String.eqb_eq]|].
  destruct (String.eqb (Action req) "") eqn:Ha;
    [left; apply (incomplete r req);
       [by exists data|right; left; by apply String.eqb_eq]|].
  destruct (String.eqb (Target req) "") eqn:Ht;
    [left; apply (incomplete r req);
       [by exists data|right; right; by apply String.eqb_eq]|].
  right. exists req. split; [by exists data|].
  by repeat split; apply String.eqb_neq.
Qed.

(** The four ways a throw ends. *)
Lemma throw_outcome (r : Request) (e : Env) :
  (∃ msg, malformed r
     ∧ serve throwBallHandler r e = (set_w (plain 400 msg) e, Returned))
  ∨ (∃ req, valid r req ∧ RedisClient e = None
       ∧ serve throwBallHandler r e
         = (set_w (plain 503 "Service unavailable") e, Returned))
  ∨ (∃ req client err, valid r req ∧ RedisClient e = Some client
       ∧ redis.fault client (db e) (ballKey (UserID req)) (Target req) fiveMinutes
         = Some err
       ∧ serve throwBallHandler r e
         = (set_w (plain 500 "Internal server error") (record_call (ballWrite req) e),
            Returned))
  ∨ (∃ req client, valid r req ∧ RedisClient e = Some client
       ∧ redis.fault client (db e) (ballKey (UserID req)) (Target req) fiveMinutes
         = None
       ∧ serve throwBallHandler r e
         = (set_w {| http.status := Some 202;
                     http.written := [http.JSONLine {[ "message" := "Ball thrown!" ]}] |}
              (set_db (<[ballKey (UserID req) := (Target req, fiveMinutes)]> (db e))
                 (record_call (ballWrite req) e)),
            Next tt)).
Proof.
  destruct (malformed_or_valid r) as [Hbad | [req Hreq]].
  - left. pose proof Hbad as Hkeep.
    destruct Hbad as [sofar err HB | data req err HB HU | req (data & HB & HU) He];
      eexists; (split; [exact Hkeep|]).
    + by apply (throw_unreadable r e sofar err).
    + by apply (throw_undecodable r e data req err).
    + by apply (throw_missing r e data req).
  - right. pose proof Hreq as ((data & HB & HU) & Hu & Ha & Ht).
    destruct (RedisClient e) as [client|] eqn:HC.
    + right.
      destruct (redis.fault client (db e) (ballKey (UserID req)) (Target req) fiveMinutes)
        as [err|] eqn:HF.
      * left. exists req, client, err. repeat (split; [done|]).
        by apply (throw_write_error r e data req HB HU Hu Ha Ht client err).
      * right. exists req, client. repeat (split; [done|]).
        by apply (throw_written r e data req HB HU Hu Ha Ht client).
    + left. exists req. repeat (split; [done|]).
      by apply (throw_unavailable r e data req).
Qed.

(** X1: a throw never panics and is always answered once, with one of the
    statuses 202, 400, 500 and 503. *)
Theorem throw_always_answers (r : Request) (e : Env) :
  ∃ code chunk,
    http.status (w (serve throwBallHandler r e).1) = Some code
    ∧ http.written (w (serve throwBallHandler r e).1) = [chunk]
    ∧ code ∈ [202; 400; 500; 503]
    ∧ ∀ msg, (serve throwBallHandler r e).2 ≠ Panicked msg.
Proof.
  destruct (throw_outcome r e)
    as [(msg & _ & ->) | [(req & _ & _ & ->) | [(req & c & err & _ & _ & _ & ->)
       | (req & c & _ & _ & _ & ->)]]];
    eexists _, _; cbn; (repeat split; [set_solver | done]).
Qed.


Lemma ballKey_inj (a b : string) : ballKey a = ballKey b → a = b.
Proof. unfold ballKey. intros H. by simplify_eq/=. Qed.

(** X3: throws of two different users write different keys: after both,
    each key holds its user's target, and the key space does not depend on
    which throw came first. *)
Theorem throws_of_distinct_users (r1 r2 : Request) (e : Env) (req1 req2 : BallRequest)
    (client : redis.Client) :
  valid r1 req1 →
  valid r2 req2 →
  UserID req1 ≠ UserID req2 →
  RedisClient e = Some client →
  reachable client →
  let e12 := (serve throwBallHandler r2 (serve throwBallHandler r1 e).1).1 in
  let e21 := (serve throwBallHandler r1 (serve throwBallHandler r2 e).1).1 in
  db e12 !! ballKey (UserID req1) = Some (Target req1, fiveMinutes)
  ∧ db e12 !! ballKey (UserID req2) = Some (Target req2, fiveMinutes)
  ∧ db e12 = db e21.
Proof.
  intros ((d1 & HB1 & HU1) & Hu1 & Ha1 & Ht1) ((d2 & HB2 & HU2) & Hu2 & Ha2 & Ht2)
    Hne HC Hlive e12 e21. subst e12 e21.
  assert (Hk : ballKey (UserID req1) ≠ ballKey (UserID req2))
    by (intros Hk; by apply Hne, ballKey_inj).
  rewrite (throw_written r1 e d1 req1 HB1 HU1 Hu1 Ha1 Ht1 client HC (Hlive _ _ _ _)).
  rewrite (throw_written r2 e d2 req2 HB2 HU2 Hu2 Ha2 Ht2 client HC (Hlive _ _ _ _)).
  erewrite (throw_written r2 _ d2 req2 HB2 HU2 Hu2 Ha2 Ht2 client);
    [| exact HC | apply Hlive].
  erewrite (throw_written r1 _ d1 req1 HB1 HU1 Hu1 Ha1 Ht1 client);
    [| exact HC | apply Hlive].
  cbn -[Z.mul time.Minute String.append].
  fold (ballKey (UserID req1)) (ballKey (UserID req2)).
  split; [by rewrite lookup_insert_ne, lookup_insert_eq|].
  split; [by rewrite lookup_insert_eq|].
  by apply insert_insert_ne.
Qed.

Lemma throws_of_distinct_users_witness :
  let bob := post (throwBody (json.Str "bob") (json.Null) (json.Str "throw")
                     (json.Str "cup1")) in
  let e := started (Some liveRedis) None in
  let e12 := (serve throwBallHandler bob (serve throwBallHandler (aliceThrow "cup3") e).1).1 in
  let e21 := (serve throwBallHandler (aliceThrow "cup3") (serve throwBallHandler bob e).1).1 in
  db e12 !! ballKey "alice" = Some ("cup3", fiveMinutes)
  ∧ db e12 !! ballKey "bob" = Some ("cup1", fiveMinutes)
  ∧ db e12 = db e21.
Proof.
  apply (throws_of_distinct_users (aliceThrow "cup3") _ _ (aliceReq "cup3")
           {| UserID := "bob"; Role := ""; Action := "throw"; Target := "cup1" |}
           liveRedis).
  - split; [eexists; split; reflexivity | done].
  - split; [eexists; split; reflexivity | done].
  - done.
  - reflexivity.
  - intros ? ? ? ?. reflexivity.
Defined.

(** X4: a valid throw served twice against a reachable cache is answered
    202 both times and leaves the key space one throw leaves; the call log
    holds the write twice. *)
Theorem throw_repeated (r : Request) (e : Env) (req : BallRequest)
    (client : redis.Client) :
  valid r req →
  RedisClient e = Some client →
  reachable client →
  let e1 := (serve throwBallHandler r e).1 in
  let e2 := (serve throwBallHandler r e1).1 in
  http.status (w e1) = Some 202 ∧ http.status (w e2) = Some 202
  ∧ db e2 = db e1
  ∧ calls e2 = calls e ++ [ballWrite req; ballWrite req].
Proof.
  intros ((d & HB & HU) & Hu & Ha & Ht) HC Hlive e1 e2. subst e2 e1.
  rewrite (throw_written r e d req HB HU Hu Ha Ht client HC (Hlive _ _ _ _)).
  erewrite (throw_written r _ d req HB HU Hu Ha Ht client);
    [| exact HC | apply Hlive].
  cbn -[Z.mul time.Minute String.append].
  by rewrite insert_insert_eq, <- app_assoc.
Qed.

Lemma throw_repeated_witness :
  let e1 := (serve throwBallHandler (aliceThrow "cup3") (started (Some liveRedis) None)).1 in
  let e2 := (serve throwBallHandler (aliceThrow "cup3") e1).1 in
  http.status (w e1) = Some 202 ∧ http.status (w e2) = Some 202
  ∧ db e2 = db e1
  ∧ calls e2 = [] ++ [ballWrite (aliceReq "cup3"); ballWrite (aliceReq "cup3")].
Proof.
  apply (throw_repeated (aliceThrow "cup3") (started (Some liveRedis) None)
           (aliceReq "cup3") liveRedis).
  - split; [eexists; split; reflexivity | done].
  - reflexivity.
  - intros ? ? ? ?. reflexivity.
Defined.

(** X5: each handler issues at most one outbound call and only of its own
    kind: a throw a cache write and never a policy check, a cup request a
    policy check and never a cache write; a cup request leaves the key space
    as it was. *)
Theorem handlers_call_their_own (r : Request) (e : Env) :
  (calls (serve throwBallHandler r e).1 = calls e
   ∨ ∃ req, valid r req ∧ calls (serve throwBallHandler r e).1 = calls e ++ [ballWrite req])
  ∧ (calls (serve cupHandler r e).1 = calls e
     ∨ calls (serve cupHandler r e).1 = calls e ++ [cupCheck r])
  ∧ db (serve cupHandler r e).1 = db e.
Proof.
  split; [|split].
  - destruct (throw_outcome r e)
      as [(msg & _ & ->) | [(req & _ & _ & ->) | [(req & c & err & Hv & _ & _ & ->)
         | (req & c & Hv & _ & _ & ->)]]]; cbn; eauto.
  - destruct (PermitClient e) as [client|] eqn:HC.
    + right. rewrite (cup_checked r e client HC). cbn zeta.
      by destruct (permit.decide client _ _ _) as [[] []].
    + left. by rewrite cup_nil.
  - destruct (PermitClient e) as [client|] eqn:HC.
    + rewrite (cup_checked r e client HC). cbn zeta.
      by destruct (permit.decide client _ _ _) as [[] []].
    + by rewrite cup_nil.
Qed.

(** X6: a cup request is granted only on a permit without error: with a
    non-nil policy client the status is 200 exactly when the check answers
    permitted and no error, and otherwise it is 403 or 500; in particular
    an answer that carries an error grants nothing, whatever its flag. *)
Theorem cup_grants_only_on_permit (r : Request) (e : Env) (client : permit.Client) :
  PermitClient e = Some client →
  let st := http.status (w (serve cupHandler r e).1) in
  (st = Some 200 ↔ permit.decide client cupSubject "beer" (ResourceBuilder (cupParam r))
                   = (true, None))
  ∧ (st = Some 200 ∨ st = Some 403 ∨ st = Some 500)
  ∧ ∀ msg, (serve cupHandler r e).2 ≠ Panicked msg.
Proof.
  intros HC st. subst st. rewrite (cup_checked r e client HC). cbn zeta.
  unfold cupSubject, ResourceBuilder.
  destruct (permit.decide client _ _ _) as [[] [err|]]; cbn; naive_solver.
Qed.

Lemma cup_grants_only_on_permit_witness :
  let st := http.status (w (serve cupHandler (getCup "cup3")
                              (started None (Some pdpDown))).1) in
  (st = Some 200 ↔ permit.decide pdpDown cupSubject "beer"
                     (ResourceBuilder (cupParam (getCup "cup3"))) = (true, None))
  ∧ (st = Some 200 ∨ st = Some 403 ∨ st = Some 500)
  ∧ ∀ msg, (serve cupHandler (getCup "cup3") (started None (Some pdpDown))).2
           ≠ Panicked msg.
Proof.
  apply (cup_grants_only_on_permit (getCup "cup3") (started None (Some pdpDown)) pdpDown).
  reflexivity.
Defined.

(** ** Decoding the throw body *)

Lemma member_error_kept st kv err : st.2 = Some err → (member st kv).2 = Some err.
Proof.
  destruct st as [req saved], kv as [key v]. cbn. intros ->.
  destruct (fieldOf key); [|done]. by destruct v.
Qed.

Lemma fold_member_error_kept members st err :
  st.2 = Some err → (fold_left member members st).2 = Some err.
Proof.
  revert st. induction members as [|kv members IH]; intros st Hst; [done|].
  cbn. by apply IH, member_error_kept.
Qed.

Lemma fold_member_wrong_type members st key v f :
  In (key, v) members → fieldOf key = Some f → textual v = false →
  ∃ err, (fold_left member members st).2 = Some err.
Proof.
  intros Hin Hf Hv. revert st.
  induction members as [|kv members IH]; intros st; [done|].
  destruct Hin as [-> | Hin]; [|by apply IH].
  cbn [fold_left].
  assert (∃ err, (member st (key, v)).2 = Some err) as [err Herr].
  { destruct st as [req [saved|]]; cbn; rewrite Hf; destruct v; try done; by eexists. }
  exists err. by apply fold_member_error_kept.
Qed.

(** X7: a throw body in which any member that selects a field of the
    request (in any position, under any accepted spelling of the key) has a
    value that is neither a string nor [null] is answered 400 "Invalid
    request payload", whatever the other members are; nothing is written. *)
Theorem throw_wrong_type_rejected (r : Request) (e : Env)
    (members : list (string * json.Value)) (key : string) (v : json.Value) (f : Field) :
  Body r = io.Holds (json.Text (json.Object members)) →
  In (key, v) members →
  fieldOf key = Some f →
  textual v = false →
  serve throwBallHandler r e = (set_w (plain 400 "Invalid request payload") e, Returned).
Proof.
  intros HB Hin Hf Hv.
  destruct (fold_member_wrong_type members (zero, None) key v f Hin Hf Hv) as [err Herr].
  destruct (fold_left member members (zero, None)) as [req saved] eqn:Hfold.
  cbn in Herr. subst saved.
  by apply (throw_undecodable r e _ req err HB).
Qed.

Lemma throw_wrong_type_rejected_witness :
  serve throwBallHandler
    (post (json.Object [("user_id", json.Str "alice"); ("action", json.Str "throw");
                        ("target", json.Str "cup3"); ("Target", json.Array [])]))
    (started (Some liveRedis) None)
  = (set_w (plain 400 "Invalid request payload") (started (Some liveRedis) None),
     Returned).
Proof.
  apply (throw_wrong_type_rejected _ _
           [("user_id", json.Str "alice"); ("action", json.Str "throw");
            ("target", json.Str "cup3"); ("Target", json.Array [])]
           "Target" (json.Array []) FTarget).
  - reflexivity.
  - cbn. tauto.
  - reflexivity.
  - reflexivity.
Defined.

Lemma member_unknown st kv : known kv = false → member st kv = st.
Proof.
  destruct st as [req saved], kv as [key v]. unfold known. cbn.
  by destruct (fieldOf key).
Qed.

Lemma fold_member_known members st :
  fold_left member members st = fold_left member (List.filter known members) st.
Proof.
  revert st. induction members as [|kv members IH]; intros st; [done|].
  cbn. destruct (known kv) eqn:Hk; cbn.
  - apply IH.
  - rewrite member_unknown by done. apply IH.
Qed.

(** X8: members whose key selects no field of the request are ignored: two
    object bodies with the same members of known keys, in the same order,
    are served alike, whatever other members either has. *)
Theorem throw_ignores_unknown_members (r1 r2 : Request) (e : Env)
    (members1 members2 : list (string * json.Value)) :
  Body r1 = io.Holds (json.Text (json.Object members1)) →
  Body r2 = io.Holds (json.Text (json.Object members2)) →
  List.filter known members1 = List.filter known members2 →
  serve throwBallHandler r1 e = serve throwBallHandler r2 e.
Proof.
  intros HB1 HB2 Hsame. apply (throw_agree r1 r2 _ _ e HB1 HB2).
  cbn. rewrite (fold_member_known members1), (fold_member_known members2), Hsame.
  apply agree_refl.
Qed.

Lemma throw_ignores_unknown_members_witness :
  serve throwBallHandler
    (post (json.Object [("id", json.Number "1"); ("user_id", json.Str "alice");
                        ("action", json.Str "throw"); ("when", json.Object []);
                        ("target", json.Str "cup3")]))
    (started (Some liveRedis) None)
  = serve throwBallHandler
      (post (json.Object [("user_id", json.Str "alice"); ("action", json.Str "throw");
                          ("target", json.Str "cup3")]))
      (started (Some liveRedis) None).
Proof.
  apply (throw_ignores_unknown_members _ _ _
           [("id", json.Number "1"); ("user_id", json.Str "alice");
            ("action", json.Str "throw"); ("when", json.Object []);
            ("target", json.Str "cup3")]
           [("user_id", json.Str "alice"); ("action", json.Str "throw");
            ("target", json.Str "cup3")]).
  - reflexivity.
  - reflexivity.
  - reflexivity.
Defined.

(** X9: a throw whose body is a JSON text other than an object (a string,
    a number, an array, [true], [null]) is answered 400 and nothing is
    written. *)
Theorem throw_non_object_rejected (r : Request) (e : Env) (v : json.Value) :
  Body r = io.Holds (json.Text v) →
  (∀ members, v ≠ json.Object members) →
  ∃ msg, serve throwBallHandler r e = (set_w (plain 400 msg) e, Returned).
Proof.
  intros HB Hv. destruct v as [| b | lit | s | elems | members].
  - eexists. apply (throw_missing r e _ zero HB); [reflexivity | by left].
  - eexists. by eapply (throw_undecodable r e _ zero).
  - eexists. by eapply (throw_undecodable r e _ zero).
  - eexists. by eapply (throw_undecodable r e _ zero).
  - eexists. by eapply (throw_undecodable r e _ zero).
  - by destruct (Hv members).
Qed.

Lemma throw_non_object_rejected_witness :
  ∃ msg, serve throwBallHandler (post json.Null) (started (Some liveRedis) None)
         = (set_w (plain 400 msg) (started (Some liveRedis) None), Returned).
Proof.
  apply (throw_non_object_rejected _ _ json.Null).
  - reflexivity.
  - intros members. discriminate.
Defined.

(** * Routing *)

Lemma segments_nonempty (p : string) : mux.segments p ≠ [].
Proof.
  destruct p as [|c p]; [done|]. cbn.
  destruct (mux.isSlash c); [done|]. by destruct (mux.segments p).
Qed.

(** Splitting at the slashes and joining again gives the path back. *)
Lemma join_segments (p : string) : mux.join (mux.segments p) = p.
Proof.
  induction p as [|c p IH]; [done|]. cbn [mux.segments].
  pose proof (segments_nonempty p) as Hne.
  destruct (mux.isSlash c) eqn:Hc.
  - apply Ascii.eqb_eq in Hc as ->.
    destruct (mux.segments p) as [|x xs]; [done|].
    change (mux.join ("" :: x :: xs)) with ("/" +:+ mux.join (x :: xs)).
    by rewrite IH.
  - destruct (mux.segments p) as [|x xs]; [done|].
    destruct xs as [|y ys]; cbn in *; by rewrite <- IH.
Qed.

Lemma segments_no_slash (p : string) :
  Forall (λ x, hasSlash x = false) (mux.segments p).
Proof.
  induction p as [|c p IH]; [by repeat constructor|]. cbn [mux.segments].
  destruct (mux.isSlash c) eqn:Hc; [by constructor|].
  destruct (mux.segments p) as [|x xs]; [by repeat constructor; cbn; rewrite Hc|].
  inversion_clear IH. constructor; [|done]. cbn. by rewrite Hc.
Qed.

Lemma segments_slash_free (x : string) : hasSlash x = false → mux.segments x = [x].
Proof.
  induction x as [|c x IH]; [done|]. cbn.
  intros [Hc Hx]%orb_false_iff. by rewrite Hc, (IH Hx).
Qed.

Lemma endsWithSlash_slash_free (x : string) :
  hasSlash x = false → mux.endsWithSlash x = false.
Proof.
  induction x as [|c x IH]; [done|]. cbn.
  intros [Hc Hx]%orb_false_iff. destruct x; [done|]. by apply IH.
Qed.

(** What the two templates of the router match. *)
Lemma matchPath_throw (p : string) (vars : gmap string string) :
  mux.matchPath [mux.Lit "throw"] p = Some vars → p = "/throw" ∧ vars = ∅.
Proof.
  unfold mux.matchPath. rewrite <- (join_segments p) at 2.
  destruct (mux.segments p) as [|[|] [|x [|]]]; try done; cbn -[String.eqb];
    destruct (String.eqb "throw" x) eqn:Hx; try done.
  apply String.eqb_eq in Hx as <-. by intros [= <-].
Qed.

Lemma matchPath_cup (p : string) (vars : gmap string string) :
  mux.matchPath [mux.Lit "cup"; mux.Var "cup_id"] p = Some vars →
  ∃ x, p = "/cup/" +:+ x ∧ x ≠ "" ∧ hasSlash x = false
       ∧ vars = {[ "cup_id" := x ]}.
Proof.
  unfold mux.matchPath.
  generalize (segments_no_slash p) (join_segments p).
  destruct (mux.segments p) as [|[|] [|c [|x l]]]; try done; cbn -[String.eqb];
    destruct (String.eqb "cup" c) eqn:Hc; try done.
  apply String.eqb_eq in Hc as <-.
  destruct (String.eqb x "") eqn:Hx; [done|]. apply String.eqb_neq in Hx.
  destruct l; [|done].
  intros Hfree <- [= <-]. exists x.
  inversion_clear Hfree as [|? ? _ Hfree']. inversion_clear Hfree' as [|? ? _ Hfree''].
  inversion_clear Hfree'' as [|? ? Hxfree _].
  split_and!; done.
Qed.

Lemma cup_path_unfold (x : string) :
  "/cup/" +:+ x = String "/" (String "c" (String "u" (String "p" (String "/" x)))).
Proof. reflexivity. Qed.

Lemma cleanPath_cup (x : string) : cupIdOk x → mux.cleanPath ("/cup/" +:+ x) = "/cup/" +:+ x.
Proof.
  intros (Hne & Hfree & Hdot & Hdots).
  unfold mux.cleanPath, mux.Clean. rewrite cup_path_unfold.
  change (String.eqb (String "/" (String "c" (String "u" (String "p" (String "/" x))))) "")
    with false.
  cbn [mux.beginsWithSlash mux.isSlash Ascii.eqb Bool.eqb].
  assert (mux.endsWithSlash (String "/" (String "c" (String "u" (String "p" (String "/" x)))))
          = false) as ->.
  { destruct x as [|c x]; [done|]. apply (endsWithSlash_slash_free _ Hfree). }
  cbn [andb mux.segments mux.isSlash Ascii.eqb Bool.eqb].
  rewrite (segments_slash_free x Hfree).
  apply String.eqb_neq in Hne, Hdot, Hdots.
  cbn [fold_left]. unfold mux.cleanStep at 1. rewrite Hne, Hdot, Hdots.
  reflexivity.
Qed.

Lemma matchPath_cup_ok (x : string) :
  cupIdOk x →
  mux.matchPath [mux.Lit "throw"] ("/cup/" +:+ x) = None
  ∧ mux.matchPath [mux.Lit "cup"; mux.Var "cup_id"] ("/cup/" +:+ x)
    = Some {[ "cup_id" := x ]}.
Proof.
  intros (Hne & Hfree & _). unfold mux.matchPath. rewrite cup_path_unfold.
  cbn [mux.segments mux.isSlash Ascii.eqb Bool.eqb].
  rewrite (segments_slash_free x Hfree).
  apply String.eqb_neq in Hne.
  split; [reflexivity|]. cbn [mux.matchParts].
  change (String.eqb "cup" "cup") with true. cbn iota. by rewrite Hne.
Qed.

(** The five ways the router serves a request, by its method and path. *)
Lemma serve_cases (req : mux.Inbound) (e : Env) :
  (mux.cleanPath (mux.Path req) ≠ mux.Path req
   ∧ main.serve req e
     = (set_w {| http.status := Some 301; http.written := [] |} e, Returned))
  ∨ (mux.Method req = "POST" ∧ mux.Path req = "/throw"
     ∧ main.serve req e = serve throwBallHandler (routed req ∅) e)
  ∨ (∃ x, mux.Method req = "GET" ∧ mux.Path req = "/cup/" +:+ x ∧ cupIdOk x
       ∧ main.serve req e = serve cupHandler (routed req {[ "cup_id" := x ]}) e)
  ∨ (((mux.Path req = "/throw" ∧ mux.Method req ≠ "POST")
      ∨ (∃ x, mux.Path req = "/cup/" +:+ x ∧ cupIdOk x ∧ mux.Method req ≠ "GET"))
     ∧ main.serve req e
       = (set_w {| http.status := Some 405; http.written := [] |} e, Next tt))
  ∨ (mux.cleanPath (mux.Path req) = mux.Path req
     ∧ mux.Path req ≠ "/throw"
     ∧ (∀ x, x ≠ "" → hasSlash x = false → mux.Path req ≠ "/cup/" +:+ x)
     ∧ main.serve req e = (set_w (plain 404 "404 page not found") e, Next tt)).
Proof.
  unfold main.serve, mux.ServeHTTP.
  destruct (String.eqb (mux.cleanPath (mux.Path req)) (mux.Path req)) eqn:Hclean;
    [|left; by apply String.eqb_neq in Hclean].
  right. apply String.eqb_eq in Hclean. cbn [negb].
  unfold router.Router, mux.HandleFunc. cbn [mux.Match mux.template].
  assert (Hpost : ∀ m, mux.hasMethod m {| mux.template := [mux.Lit "throw"];
             mux.methods := ["POST"]; mux.handler := throwBallHandler |}
           = String.eqb m "POST").
  { intros m. unfold mux.hasMethod. cbn -[String.eqb]. apply orb_false_r. }
  assert (Hget : ∀ m, mux.hasMethod m {| mux.template := [mux.Lit "cup"; mux.Var "cup_id"];
             mux.methods := ["GET"]; mux.handler := cupHandler |}
           = String.eqb m "GET").
  { intros m. unfold mux.hasMethod. cbn -[String.eqb]. apply orb_false_r. }
  rewrite Hpost, Hget.
  assert (Hcup : ∀ vars,
             mux.matchPath [mux.Lit "cup"; mux.Var "cup_id"] (mux.Path req) = Some vars →
             ∃ x, mux.Path req = "/cup/" +:+ x ∧ cupIdOk x ∧ vars = {[ "cup_id" := x ]}).
  { intros vars (x & Hp & Hne & Hfree & ->)%matchPath_cup. exists x.
    repeat split; try done; intros ->; by rewrite Hp in Hclean. }
  destruct (mux.matchPath [mux.Lit "throw"] (mux.Path req)) as [vars|] eqn:Hthrow.
  - apply matchPath_throw in Hthrow as [Hp ->].
    destruct (String.eqb (mux.Method req) "POST") eqn:Hm.
    + left. by apply String.eqb_eq in Hm.
    + right. right. left. apply String.eqb_neq in Hm.
      split; [by left|]. by rewrite Hp.
  - right.
    destruct (mux.matchPath [mux.Lit "cup"; mux.Var "cup_id"] (mux.Path req))
      as [vars|] eqn:Hc.
    + destruct (Hcup vars eq_refl) as (x & Hp & Hok & ->).
      destruct (String.eqb (mux.Method req) "GET") eqn:Hm.
      * left. exists x. by apply String.eqb_eq in Hm.
      * right. left. apply String.eqb_neq in Hm. split; [|done].
        right. by exists x.
    + right. right. split; [done|]. split; [by intros Hp; rewrite Hp in Hthrow|].
      split; [|done]. intros x Hne Hfree Hp. rewrite Hp in Hc.
      revert Hc. unfold mux.matchPath. rewrite cup_path_unfold.
      cbn [mux.segments mux.isSlash Ascii.eqb Bool.eqb].
      rewrite (segments_slash_free x Hfree). cbn [mux.matchParts].
      change (String.eqb "cup" "cup") with true. cbn iota.
      apply String.eqb_neq in Hne. by rewrite Hne.
Qed.

(** What one routed request does to the state. *)
Lemma serve_handles (req : mux.Inbound) (e : Env) :
  RedisClient (main.serve req e).1 = RedisClient e
  ∧ PermitClient (main.serve req e).1 = PermitClient e.
Proof.
  destruct (serve_cases req e)
    as [[_ ->] | [(_ & _ & ->) | [(x & _ & _ & _ & ->) | [[_ ->] | (_ & _ & _ & ->)]]]];
    try done.
  - by destruct (throw_outcome (routed req ∅) e)
      as [(msg & _ & ->) | [(q & _ & _ & ->) | [(q & c & err & _ & _ & _ & ->)
         | (q & c & _ & _ & _ & ->)]]].
  - destruct (PermitClient e) as [client|] eqn:HC.
    + rewrite (cup_checked _ e client HC). cbn zeta.
      by destruct (permit.decide client _ _ _) as [[] []].
    + by rewrite cup_nil.
Qed.

Lemma serve_calls (req : mux.Inbound) (e : Env) :
  calls (main.serve req e).1 = calls e
  ∨ (∃ q, UserID q ≠ "" ∧ Target q ≠ "" ∧ RedisClient e ≠ None
        ∧ mux.Method req = "POST"
        ∧ calls (main.serve req e).1 = calls e ++ [ballWrite q])
  ∨ (∃ x, cupIdOk x ∧ PermitClient e ≠ None ∧ mux.Method req = "GET"
        ∧ mux.Path req = "/cup/" +:+ x
        ∧ calls (main.serve req e).1
          = calls e ++ [PermitCheck cupSubject "beer" (ResourceBuilder x)]).
Proof.
  destruct (serve_cases req e)
    as [[_ ->] | [(Hm & _ & ->) | [(x & Hm & Hp & Hx & ->) | [[_ ->] | (_ & _ & _ & ->)]]]];
    try by left.
  - destruct (throw_outcome (routed req ∅) e)
      as [(msg & _ & ->) | [(q & _ & _ & ->) | [(q & c & err & Hv & HC & _ & ->)
         | (q & c & Hv & HC & _ & ->)]]]; try by left.
    + right. left. exists q. destruct Hv as (_ & Hu & _ & Ht). by rewrite HC.
    + right. left. exists q. destruct Hv as (_ & Hu & _ & Ht). by rewrite HC.
  - destruct (PermitClient e) as [client|] eqn:HC.
    + right. right. exists x. rewrite (cup_checked _ e client HC). cbn zeta.
      split_and!; try done.
      by destruct (permit.decide client _ _ _) as [[] []].
    + left. by rewrite cup_nil.
Qed.

Lemma serve_answer (req : mux.Inbound) (e : Env) :
  PermitClient e ≠ None →
  (∃ code, http.status (w (main.serve req e).1) = Some code ∧ code ∈ statuses)
  ∧ ∀ msg, (main.serve req e).2 ≠ Panicked msg.
Proof.
  intros HP.
  destruct (serve_cases req e)
    as [[_ ->] | [(_ & _ & ->) | [(x & _ & _ & _ & ->) | [[_ ->] | (_ & _ & _ & ->)]]]];
    try (split; [eexists; split; [reflexivity|unfold statuses; set_solver] | done]).
  - destruct (throw_outcome (routed req ∅) e)
      as [(msg & _ & ->) | [(q & _ & _ & ->) | [(q & c & err & _ & _ & _ & ->)
         | (q & c & _ & _ & _ & ->)]]];
      (split; [eexists; split; [reflexivity|unfold statuses; set_solver] | done]).
  - destruct (PermitClient e) as [client|] eqn:HC; [|done].
    rewrite (cup_checked _ e client HC). cbn zeta.
    destruct (permit.decide client _ _ _) as [[] []];
      (split; [eexists; split; [reflexivity|unfold statuses; set_solver] | done]).
Qed.

Lemma serve_without_redis (req : mux.Inbound) (e : Env) :
  RedisClient e = None →
  http.status (w (main.serve req e).1) ≠ Some 202
  ∧ db (main.serve req e).1 = db e.
Proof.
  intros HR.
  destruct (serve_cases req e)
    as [[_ ->] | [(_ & _ & ->) | [(x & _ & _ & _ & ->) | [[_ ->] | (_ & _ & _ & ->)]]]];
    try done.
  - destruct (throw_outcome (routed req ∅) e)
      as [(msg & _ & ->) | [(q & _ & _ & ->) | [(q & c & err & _ & HC & _ & ->)
         | (q & c & _ & HC & _ & ->)]]]; try done; by rewrite HR in HC.
  - destruct (PermitClient e) as [client|] eqn:HC.
    + rewrite (cup_checked _ e client HC). cbn zeta.
      by destruct (permit.decide client _ _ _) as [[] []].
    + by rewrite cup_nil.
Qed.

Lemma serveAll_cons (req : mux.Inbound) (reqs : list mux.Inbound) (e : Env) :
  main.serveAll (req :: reqs) e = main.serveAll reqs (main.serve req e).1.
Proof. reflexivity. Qed.

Lemma serveAll_handles (reqs : list mux.Inbound) (e : Env) :
  RedisClient (main.serveAll reqs e) = RedisClient e
  ∧ PermitClient (main.serveAll reqs e) = PermitClient e.
Proof.
  revert e. induction reqs as [|req reqs IH]; intros e; [done|].
  rewrite serveAll_cons. destruct (IH (main.serve req e).1) as [-> ->].
  apply serve_handles.
Qed.

(** X10: the router hands a POST of [/throw] to the throw handler, and a
    GET of [/cup/x] to the cup handler with [x] as its [cup_id], for every
    [x] that is one non-empty path element other than [.] and [..]. *)
Theorem router_dispatch (req : mux.Inbound) (e : Env) :
  (mux.Method req = "POST" → mux.Path req = "/throw" →
   main.serve req e = serve throwBallHandler (routed req ∅) e)
  ∧ (∀ x, mux.Method req = "GET" → mux.Path req = "/cup/" +:+ x → cupIdOk x →
       main.serve req e = serve cupHandler (routed req {[ "cup_id" := x ]}) e
       ∧ cupParam (routed req {[ "cup_id" := x ]}) = x).
Proof.
  split.
  - intros Hm Hp.
    destruct (serve_cases req e)
      as [[Hc _] | [(_ & _ & H) | [(x & Hm' & _) | [[[[_ Hm']|(x & Hp' & _)] _]
         | (_ & Hp' & _)]]]]; try done.
    + by rewrite Hp in Hc.
    + by rewrite Hm in Hm'.
    + by rewrite Hp in Hp'.
  - intros x Hm Hp Hx. split; [|reflexivity].
    destruct (serve_cases req e)
      as [[Hc _] | [(Hm' & _) | [(y & _ & Hp' & _ & H) | [[[[Hp' _]|(y & _ & _ & Hm')] _]
         | (_ & _ & Hp' & _)]]]]; try done.
    + by rewrite Hp, (cleanPath_cup x Hx) in Hc.
    + by rewrite Hm in Hm'.
    + rewrite Hp in Hp'. rewrite !cup_path_unfold in Hp'. by simplify_eq.
    + by rewrite Hp in Hp'.
    + destruct Hx as (Hne & Hfree & _). by destruct (Hp' x Hne Hfree).
Qed.

Lemma router_dispatch_witness :
  main.serve (getPath "/cup/cup3") (started None (Some denyAll))
  = serve cupHandler (routed (getPath "/cup/cup3") {[ "cup_id" := "cup3" ]})
      (started None (Some denyAll))
  ∧ cupParam (routed (getPath "/cup/cup3") {[ "cup_id" := "cup3" ]}) = "cup3".
Proof.
  apply (proj2 (router_dispatch (getPath "/cup/cup3") (started None (Some denyAll)))
           "cup3").
  - reflexivity.
  - reflexivity.
  - by repeat split.
Defined.

(** X11: what the router refuses, whatever the header and body.  A path
    that is not in canonical form (a doubled slash, a [.] or [..] element,
    no leading slash) is answered 301; [/throw] with a method other than
    POST and [/cup/x] with a method other than GET are answered 405; any
    other canonical path is answered 404.  In all three cases no handler
    runs: nothing but the response changes. *)
Theorem router_refuses (req : mux.Inbound) (e : Env) :
  (mux.cleanPath (mux.Path req) ≠ mux.Path req →
   main.serve req e
   = (set_w {| http.status := Some 301; http.written := [] |} e, Returned))
  ∧ ((mux.Path req = "/throw" ∧ mux.Method req ≠ "POST")
     ∨ (∃ x, mux.Path req = "/cup/" +:+ x ∧ cupIdOk x ∧ mux.Method req ≠ "GET") →
     main.serve req e
     = (set_w {| http.status := Some 405; http.written := [] |} e, Next tt))
  ∧ (mux.cleanPath (mux.Path req) = mux.Path req →
     mux.Path req ≠ "/throw" →
     (∀ x, x ≠ "" → hasSlash x = false → mux.Path req ≠ "/cup/" +:+ x) →
     main.serve req e = (set_w (plain 404 "404 page not found") e, Next tt)).
Proof.
  split_and!.
  - intros Hc.
    destruct (serve_cases req e)
      as [[_ H] | [(_ & Hp & _) | [(x & _ & Hp & Hx & _) | [[[[Hp _]|(x & Hp & Hx & _)] _]
         | (Hc' & _)]]]]; try done.
    + by rewrite Hp in Hc.
    + by rewrite Hp, (cleanPath_cup x Hx) in Hc.
    + by rewrite Hp in Hc.
    + by rewrite Hp, (cleanPath_cup x Hx) in Hc.
  - intros Hbad.
    destruct (serve_cases req e)
      as [[Hc _] | [(Hm & Hp & _) | [(x & Hm & Hp & Hx & _) | [[_ H]
         | (_ & Hp & Hp' & _)]]]]; try done.
    + destruct Hbad as [[Hp _]|(x & Hp & Hx & _)].
      * by rewrite Hp in Hc.
      * by rewrite Hp, (cleanPath_cup x Hx) in Hc.
    + destruct Hbad as [[_ Hm']|(x & Hp' & _)]; [done|]. by rewrite Hp in Hp'.
    + destruct Hbad as [[Hp' _]|(y & Hp' & _ & Hm')]; [|done]. by rewrite Hp in Hp'.
    + destruct Hbad as [[Hp'' _]|(x & Hp'' & (Hne & Hfree & _) & _)]; [done|].
      by destruct (Hp' x Hne Hfree).
  - intros Hc Hthrow Hcup.
    destruct (serve_cases req e)
      as [[Hc' _] | [(_ & Hp & _) | [(x & _ & Hp & (Hne & Hfree & _) & _)
         | [[[[Hp _]|(x & Hp & (Hne & Hfree & _) & _)] _] | (_ & _ & _ & H)]]]];
      try done; by destruct (Hcup x Hne Hfree).
Qed.

Lemma router_refuses_witness :
  main.serve (getPath "/throw") (started (Some liveRedis) (Some denyAll))
  = (set_w {| http.status := Some 405; http.written := [] |}
       (started (Some liveRedis) (Some denyAll)), Next tt).
Proof.
  apply (proj1 (proj2 (router_refuses (getPath "/throw")
                         (started (Some liveRedis) (Some denyAll))))).
  left. split; [reflexivity | discriminate].
Defined.





(** * Start-up *)

(** X14: [CheckEnv] yields the value of a variable exactly when it is set
    and not empty; a variable set to the empty string ends the process like
    one that is not set.  A value it yields is never empty. *)
Theorem CheckEnv_spec (environ : gmap string string) (key : string) :
  (∀ value, config.CheckEnv environ key = Up value
            ↔ environ !! key = Some value ∧ value ≠ "")
  ∧ ((∃ msg, config.CheckEnv environ key = Fatal msg)
     ↔ environ !! key = None ∨ environ !! key = Some "").
Proof.
  unfold config.CheckEnv, os.Getenv.
  destruct (environ !! key) as [v|]; cbn -[String.eqb].
  - destruct (String.eqb v "") eqn:Hv.
    + apply String.eqb_eq in Hv as ->. split; [|split; [by right | by eexists]].
      intros value. split; [done|]. by intros [[= <-] ?].
    + apply String.eqb_neq in Hv. split.
      * intros value. split; [by intros [= <-]|]. by intros [[= <-] _].
      * split; [by intros [? ?]|]. intros [|[= ->]]; done.
  - split; [|split; [by left | by eexists]].
    intros value. split; [done|]. by intros [? _].
Qed.

(** The state [main] serves in, from the [.env] variables. *)
Lemma main_run (h : host.Host) :
  main.main h
  = match host.dotenv h with
    | godotenv.Unreadable _ => Fatal "Failed to load .env variables"
    | godotenv.Parsed vars =>
        let key := os.Getenv (host.environ h ∪ vars) "API_KEY" in
        if String.eqb key ""
        then Fatal "WARNING!: Environment variable API_KEY is missing"
        else if notNil (host.listen h ":1224")
             then Fatal "Server failed to start trekking"
             else Up {| RedisClient := if notNil (host.redisAt h localRedis).2
                                       then None
                                       else Some (host.redisAt h localRedis).1;
                        PermitClient := Some (host.permitAt h (cloudPdp key));
                        db := host.keyspace h; calls := []; w := http.fresh |}
    end.
Proof.
  unfold main.main, godotenv.Load. destruct (host.dotenv h) as [err|vars]; [done|].
  cbn -[String.eqb config.CheckEnv]. unfold config.PermitInit, config.CheckEnv.
  cbn zeta. destruct (String.eqb _ "") eqn:Hkey; [done|].
  unfold config.RedisInit, localRedis, cloudPdp.
  destruct (host.redisAt h _) as [client [err|]]; cbn;
    by destruct (host.listen h ":1224").
Qed.

(** X15: [main] comes to serve exactly when the [.env] file loads, the
    variable [API_KEY] is not empty after the load, and the server can
    listen on [:1224].  It then serves with a policy client built from
    that key and the cloud PDP address, with a Redis client that is nil
    when the first ping failed (a Redis server that is down is not fatal),
    and with no call made yet. *)
Theorem main_serves_iff (h : host.Host) (e : Env) :
  main.main h = Up e
  ↔ ∃ vars, host.dotenv h = godotenv.Parsed vars
      ∧ os.Getenv (host.environ h ∪ vars) "API_KEY" ≠ ""
      ∧ host.listen h ":1224" = None
      ∧ e = {| RedisClient := if notNil (host.redisAt h localRedis).2
                              then None
                              else Some (host.redisAt h localRedis).1;
               PermitClient :=
                 Some (host.permitAt h
                         (cloudPdp (os.Getenv (host.environ h ∪ vars) "API_KEY")));
               db := host.keyspace h; calls := []; w := http.fresh |}.
Proof.
  rewrite main_run. destruct (host.dotenv h) as [err|vars];
    [split; [done | by intros (? & ? & _)]|].
  cbn zeta. destruct (String.eqb _ "") eqn:Hkey.
  - apply String.eqb_eq in Hkey. split; [done|].
    intros (vars' & [= <-] & Hne & _). done.
  - apply String.eqb_neq in Hkey.
    destruct (host.listen h ":1224") as [err|]; cbn.
    + split; [done|]. by intros (vars' & _ & _ & ? & _).
    + split.
      * intros [= <-]. by exists vars.
      * by intros (vars' & [= <-] & _ & _ & ->).
Qed.


Lemma main_up_handles (h : host.Host) (e : Env) :
  main.main h = Up e →
  PermitClient e ≠ None
  ∧ RedisClient e = (if notNil (host.redisAt h localRedis).2
                     then None else Some (host.redisAt h localRedis).1)
  ∧ db e = host.keyspace h ∧ calls e = [].
Proof.
  rewrite main_run. destruct (host.dotenv h) as [err|vars]; [done|].
  cbn zeta. destruct (String.eqb _ ""); [done|].
  destruct (notNil (host.listen h ":1224")); [done|]. by intros [= <-].
Qed.

(** X17: a variable [API_KEY] of the environment goes before the one of
    the [.env] file: when the environment has a non-empty [API_KEY], the
    file loads and the server can listen, [main] serves with the policy
    client built from the environment's key, whatever the file says. *)
Theorem environment_beats_dotenv (h : host.Host) (key : string)
    (vars : gmap string string) :
  host.environ h !! "API_KEY" = Some key →
  key ≠ "" →
  host.dotenv h = godotenv.Parsed vars →
  host.listen h ":1224" = None →
  ∃ e, main.main h = Up e
    ∧ PermitClient e = Some (host.permitAt h (cloudPdp key)).
Proof.
  intros Hkey Hne Hfile Hlisten. rewrite main_run, Hfile. cbn zeta.
  assert (os.Getenv (host.environ h ∪ vars) "API_KEY" = key) as ->.
  { unfold os.Getenv. by rewrite (lookup_union_Some_l _ _ _ _ Hkey). }
  apply String.eqb_neq in Hne. rewrite Hne, Hlisten. cbn. by eexists.
Qed.

Lemma environment_beats_dotenv_witness :
  ∃ e, main.main {| host.environ := {[ "API_KEY" := "from_shell" ]};
                    host.dotenv := godotenv.Parsed {[ "API_KEY" := "from_file" ]};
                    host.redisAt := λ _, (liveRedis, None);
                    host.keyspace := ∅;
                    host.permitAt := λ cfg, if String.eqb (host.ApiKey cfg) "from_shell"
                                            then allowAll else denyAll;
                    host.listen := λ _, None |} = Up e
    ∧ PermitClient e = Some allowAll.
Proof.
  apply (environment_beats_dotenv
           {| host.environ := {[ "API_KEY" := "from_shell" ]};
              host.dotenv := godotenv.Parsed {[ "API_KEY" := "from_file" ]};
              host.redisAt := λ _, (liveRedis, None);
              host.keyspace := ∅;
              host.permitAt := λ cfg, if String.eqb (host.ApiKey cfg) "from_shell"
                                      then allowAll else denyAll;
              host.listen := λ _, None |}
           "from_shell" {[ "API_KEY" := "from_file" ]}).
  - reflexivity.
  - discriminate.
  - reflexivity.
  - reflexivity.
Defined.

(** * Runs of requests *)

(** X18: the two client handles are never reassigned while the server
    serves: after any run of requests, panics included, they are what
    start-up made them. *)
Theorem handles_never_reassigned (reqs : list mux.Inbound) (e : Env) :
  RedisClient (main.serveAll reqs e) = RedisClient e
  ∧ PermitClient (main.serveAll reqs e) = PermitClient e.
Proof. apply serveAll_handles. Qed.

(** X19: served from [main], the program never panics: after a start-up
    that comes to serve, every request of every run is answered with one of
    the statuses 200, 202, 301, 400, 403, 404, 405, 500 and 503.  The nil
    policy client on which the cup handler panics cannot occur there. *)
Theorem served_from_main_never_panics (h : host.Host) (e : Env)
    (reqs : list mux.Inbound) (req : mux.Inbound) :
  main.main h = Up e →
  (∃ code, http.status (w (main.serve req (main.serveAll reqs e)).1) = Some code
           ∧ code ∈ statuses)
  ∧ ∀ msg, (main.serve req (main.serveAll reqs e)).2 ≠ Panicked msg.
Proof.
  intros (HP & _)%main_up_handles. apply serve_answer.
  by rewrite (proj2 (serveAll_handles reqs e)).
Qed.

Lemma served_from_main_never_panics_witness :
  (∃ code, http.status
             (w (main.serve (getPath "/cup/cup3")
                   (main.serveAll [getPath "/cup/cup1"; getPath "//"]
                      (started (Some liveRedis) (Some denyAll)))).1) = Some code
           ∧ code ∈ statuses)
  ∧ ∀ msg, (main.serve (getPath "/cup/cup3")
              (main.serveAll [getPath "/cup/cup1"; getPath "//"]
                 (started (Some liveRedis) (Some denyAll)))).2 ≠ Panicked msg.
Proof.
  apply (served_from_main_never_panics laptop (started (Some liveRedis) (Some denyAll))
           [getPath "/cup/cup1"; getPath "//"] (getPath "/cup/cup3")).
  reflexivity.
Defined.

(** X20: a Redis server that is down when [main] starts stays unused: the
    handle is nil after any run of requests, no request changes the key
    space or is answered 202, and every valid throw is answered 503, for as
    long as the process runs. *)
Theorem redis_down_at_start (h : host.Host) (e : Env) (err : error)
    (reqs : list mux.Inbound) (req : mux.Inbound) :
  main.main h = Up e →
  (host.redisAt h localRedis).2 = Some err →
  let e1 := main.serveAll reqs e in
  RedisClient e1 = None
  ∧ db (main.serve req e1).1 = db e1
  ∧ http.status (w (main.serve req e1).1) ≠ Some 202
  ∧ (∀ q, mux.Method req = "POST" → mux.Path req = "/throw" →
          valid (routed req ∅) q →
          main.serve req e1 = (set_w (plain 503 "Service unavailable") e1, Returned)).
Proof.
  intros (_ & HR & _)%main_up_handles Hping e1. rewrite Hping in HR. cbn in HR.
  assert (HR1 : RedisClient e1 = None)
    by (subst e1; by rewrite (proj1 (serveAll_handles reqs e))).
  split; [done|].
  destruct (serve_without_redis req e1 HR1) as [Hst Hdb].
  split_and!; try done.
  intros q Hm Hp ((data & HB & HU) & Hu & Ha & Ht).
  destruct (serve_cases req e1)
    as [[Hc _] | [(_ & _ & ->) | [(x & Hm' & _) | [[[[_ Hm']|(x & Hp' & _)] _]
       | (_ & Hp' & _)]]]]; try done.
  - by rewrite Hp in Hc.
  - by apply (throw_unavailable _ e1 data q).
  - by rewrite Hm in Hm'.
  - by rewrite Hp in Hp'.
Qed.

Lemma redis_down_at_start_witness :
  let e1 := main.serveAll [postThrow (throwBody (json.Str "bob") json.Null
                                        (json.Str "throw") (json.Str "cup1"))]
              (started None (Some denyAll)) in
  let req := postThrow (throwBody (json.Str "alice") (json.Str "player")
                          (json.Str "throw") (json.Str "cup3")) in
  RedisClient e1 = None
  ∧ db (main.serve req e1).1 = db e1
  ∧ http.status (w (main.serve req e1).1) ≠ Some 202
  ∧ (∀ q, mux.Method req = "POST" → mux.Path req = "/throw" →
          valid (routed req ∅) q →
          main.serve req e1 = (set_w (plain 503 "Service unavailable") e1, Returned)).
Proof.
  apply (redis_down_at_start laptopNoRedis (started None (Some denyAll))
           (RedisError "connection refused")).
  - reflexivity.
  - reflexivity.
Defined.

(** X21: over any run of requests the server makes at most one outbound
    call per request, and only calls of two shapes: a cache write of a
    non-empty target under ["ball:" + user_id] for a non-empty [user_id],
    always with the five-minute expiry, and a policy check of the fixed
    subject and action on a cup id taken from the path. *)
Theorem run_makes_own_calls (reqs : list mux.Inbound) (e : Env) :
  ∃ more, calls (main.serveAll reqs e) = calls e ++ more
    ∧ Forall ownCall more
    ∧ (length more ≤ length reqs)%nat.
Proof.
  revert e. induction reqs as [|req reqs IH]; intros e.
  - exists []. by rewrite app_nil_r.
  - rewrite serveAll_cons.
    destruct (IH (main.serve req e).1) as (more & -> & Hown & Hlen).
    destruct (serve_calls req e)
      as [-> | [(q & Hu & Ht & _ & _ & ->) | (x & Hx & _ & _ & _ & ->)]].
    + exists more. split_and!; [done..|]. cbn. lia.
    + exists (ballWrite q :: more). rewrite <- app_assoc. split_and!; [done| |cbn; lia].
      constructor; [|done]. left. by exists (UserID q), (Target q).
    + exists (PermitCheck cupSubject "beer" (ResourceBuilder x) :: more).
      rewrite <- app_assoc. split_and!; [done| |cbn; lia].
      constructor; [|done]. right. by exists x.
Qed.
